(** * TranscribeAI: the speech-recognition client and the WAV repackaging step

    A shallow embedding of [src/ai/flows/transcribe-live-speech.ts] and
    [src/ai/flows/generate-spoken-audio.ts], followed by the properties the
    specification states about them.

    Conventions of the embedding

    - A JavaScript string is a Rocq [string]; a character is a code unit
      below 256 (Latin-1).  [toLowerCase], [trim] and the regular expression
      classes are given on that range.
    - A value produced by [JSON.parse] is a [json]; [undefined] is [None] of
      [option json].
    - The recognition service is a function from the attempt number to what
      the [fetch] of that attempt does; the flow returns the list of its
      externally visible events (timer waits and network calls) together
      with how it completes.
    - An [Error] object is its message and, for the final error of the retry
      loop, the [lastError] property the code attaches to it. *)

From Stdlib Require Import String Ascii List NArith ZArith Bool Lia DecimalString.
Import ListNotations.
Local Open Scope string_scope.
Local Open Scope N_scope.
Set Warnings "-register-all".
Set Warnings "-automation".


(* ------------------------------------------------------------------ *)
(** ** JavaScript strings *)

Module JsString.

Definition code (c : ascii) : N := N_of_ascii c.

Definition between (lo hi : N) (c : ascii) : bool :=
  (lo <=? code c) && (code c <=? hi).

Definition isUpper (c : ascii) : bool := between 65 90 c.
Definition isLower (c : ascii) : bool := between 97 122 c.
Definition isDigit (c : ascii) : bool := between 48 57 c.
Definition isAlnum (c : ascii) : bool := isLower c || isUpper c || isDigit c.

(** [String.prototype.toLowerCase] on one code unit: A-Z and the Latin-1
    capitals U+00C0..U+00DE (the multiplication sign U+00D7 apart) move up
    by 32, everything else is left alone. *)
Definition lowerChar (c : ascii) : ascii :=
  if isUpper c || (between 192 222 c && negb (code c =? 215))
  then ascii_of_N (code c + 32)
  else c.

Fixpoint toLowerCase (s : string) : string :=
  match s with
  | EmptyString => EmptyString
  | String c r => String (lowerChar c) (toLowerCase r)
  end.

(** [s.includes(needle)] *)
Fixpoint includes (s needle : string) : bool :=
  if prefix needle s then true
  else match s with
       | EmptyString => false
       | String _ r => includes r needle
       end.

(** White space and line terminators of ECMAScript below U+0100:
    TAB, LF, VT, FF, CR, SPACE, NO-BREAK SPACE. *)
Definition isWhite (c : ascii) : bool :=
  between 9 13 c || (code c =? 32) || (code c =? 160).

Definition isEmpty (s : string) : bool :=
  match s with EmptyString => true | _ => false end.

Fixpoint trimStart (s : string) : string :=
  match s with
  | EmptyString => EmptyString
  | String c r => if isWhite c then trimStart r else s
  end.

Fixpoint trimEnd (s : string) : string :=
  match s with
  | EmptyString => EmptyString
  | String c r =>
      let r' := trimEnd r in
      if isWhite c && isEmpty r' then EmptyString else String c r'
  end.

(** [s.trim()] *)
Definition trim (s : string) : string := trimEnd (trimStart s).

(** [xs.join(sep)] for an array of strings *)
Definition join (sep : string) (xs : list string) : string := String.concat sep xs.

Fixpoint allChars (p : ascii -> bool) (s : string) : bool :=
  match s with
  | EmptyString => true
  | String c r => p c && allChars p r
  end.

(** Decimal rendering of a non-negative integer, as a template literal
    renders it. *)
Definition decimal (n : N) : string := NilZero.string_of_uint (N.to_uint n).

Definition dquote : ascii := ascii_of_N 34.
Definition backslash : ascii := ascii_of_N 92.

End JsString.

(* ------------------------------------------------------------------ *)
(** ** JSON values *)

Module Json.
Import JsString.

(** What [JSON.parse] returns.  [JNum] carries the rendering
    [Number.prototype.toString] gives the number; an object is the list of
    its own properties in enumeration order. *)
Inductive json : Type :=
| JNull
| JBool (b : bool)
| JNum (repr : string)
| JStr (s : string)
| JArr (items : list json)
| JObj (fields : list (string * json)).

Fixpoint assoc (k : string) (fields : list (string * json)) : option json :=
  match fields with
  | [] => None
  | (k', v) :: rest => if String.eqb k k' then Some v else assoc k rest
  end.

(** [v.k] for a non-nullish [v] and a key [k] that no prototype defines
    (the code reads [error], [message], [results], [alternatives] and
    [transcript]): only an object's own property can answer. *)
Definition getProp (v : json) (k : string) : option json :=
  match v with
  | JObj fields => assoc k fields
  | _ => None
  end.

(** [v?.k] on a possibly undefined or null value *)
Definition getOpt (v : option json) (k : string) : option json :=
  match v with
  | None | Some JNull => None
  | Some j => getProp j k
  end.

(** ToBoolean *)
Definition truthy (v : json) : bool :=
  match v with
  | JNull => false
  | JBool b => b
  | JNum r => negb (String.eqb r "0")
  | JStr s => negb (isEmpty s)
  | JArr _ | JObj _ => true
  end.

Definition hexDigit (n : N) : ascii :=
  match get (N.to_nat n) "0123456789abcdef" with
  | Some c => c
  | None => "0"%char
  end.

(** One code unit inside a JSON string literal ([QuoteJSONString]). *)
Definition quoteChar (c : ascii) : string :=
  let n := code c in
  if n =? 8 then String backslash "b"
  else if n =? 9 then String backslash "t"
  else if n =? 10 then String backslash "n"
  else if n =? 12 then String backslash "f"
  else if n =? 13 then String backslash "r"
  else if n =? 34 then String backslash (String dquote EmptyString)
  else if n =? 92 then String backslash (String backslash EmptyString)
  else if n <? 32 then
    String backslash
      ("u00" ++ String (hexDigit (n / 16)) (String (hexDigit (n mod 16)) EmptyString))
  else String c EmptyString.

Fixpoint quoteBody (s : string) : string :=
  match s with
  | EmptyString => EmptyString
  | String c r => quoteChar c ++ quoteBody r
  end.

Definition quote (s : string) : string :=
  String dquote (quoteBody s ++ String dquote EmptyString).

Definition nonFinite (repr : string) : bool :=
  String.eqb repr "Infinity" || String.eqb repr "-Infinity".

(** [JSON.stringify(v)] for a value that came out of [JSON.parse] *)
Fixpoint stringify (v : json) : string :=
  match v with
  | JNull => "null"
  | JBool true => "true"
  | JBool false => "false"
  | JNum r => if nonFinite r then "null" else r
  | JStr s => quote s
  | JArr items => "[" ++ join "," (map stringify items) ++ "]"
  | JObj fields =>
      "{" ++ join "," (map (fun kv => match kv with
                                       | (k, x) => quote k ++ ":" ++ stringify x
                                       end) fields) ++ "}"
  end.

(** [JSON.stringify] of a possibly undefined value, then rendered in a
    template literal: [undefined] prints as the word. *)
Definition stringifyOpt (v : option json) : string :=
  match v with
  | None => "undefined"
  | Some j => stringify j
  end.

Definition sequence {A} (xs : list (option A)) : option (list A) :=
  fold_right (fun x acc => match x, acc with
                           | Some a, Some l => Some (a :: l)
                           | _, _ => None
                           end) (Some []) xs.

(** ToString, as a template literal applies it.  [None] stands for the
    [TypeError] of [OrdinaryToPrimitive]: a parsed object whose own
    property [toString] shadows the inherited method has no primitive
    value.  [Array.prototype.join] prints [null] as the empty string. *)
Fixpoint toStr (v : json) : option string :=
  match v with
  | JNull => Some "null"
  | JBool true => Some "true"
  | JBool false => Some "false"
  | JNum r => Some r
  | JStr s => Some s
  | JArr items =>
      option_map (join ",")
        (sequence (map (fun x => match x with
                                 | JNull => Some EmptyString
                                 | _ => toStr x
                                 end) items))
  | JObj fields =>
      match assoc "toString" fields with
      | Some _ => None
      | None => Some "[object Object]"
      end
  end.

End Json.

(* ------------------------------------------------------------------ *)
(** ** The transcription flow ([transcribe-live-speech.ts]) *)

Module Speech.
Import JsString Json.

(** An [Error]: its message and the [lastError] property, which only the
    final error of the retry loop carries. *)
Inductive JsError : Type :=
| mkError (msg : string) (cause : option JsError).

Definition message (e : JsError) : string :=
  match e with mkError m _ => m end.

Definition lastErrorOf (e : JsError) : option JsError :=
  match e with mkError _ c => c end.

(** How a piece of code completes: with a value or with a thrown error. *)
Inductive Completion (A : Type) : Type :=
| Returned (a : A)
| Thrown (e : JsError).
Arguments Returned {A} a.
Arguments Thrown {A} e.

Record TranscribeLiveSpeechInput : Type := mkInput {
  audioDataUri : string;
  languageCode : option string;
  apiKey : option string
}.

(** *** [validateDataUri] *)

(** The class [[a-zA-Z0-9\/\-\+\.]] *)
Definition isMimeChar (c : ascii) : bool :=
  isAlnum c || (code c =? 47) || (code c =? 45) || (code c =? 43) || (code c =? 46).

(** The class [[A-Za-z0-9+/=]] *)
Definition isBase64Char (c : ascii) : bool :=
  isAlnum c || (code c =? 43) || (code c =? 47) || (code c =? 61).

(** The longest prefix in a class, and what follows it: a greedy [[...]+]. *)
Fixpoint span (p : ascii -> bool) (s : string) : string * string :=
  match s with
  | EmptyString => (EmptyString, EmptyString)
  | String c r =>
      if p c then let (a, b) := span p r in (String c a, b)
      else (EmptyString, s)
  end.

(** A literal at the start of the input, and what follows it. *)
Fixpoint stripPrefix (lit s : string) : option string :=
  match lit with
  | EmptyString => Some s
  | String c lit' =>
      match s with
      | EmptyString => None
      | String d s' => if Ascii.eqb c d then stripPrefix lit' s' else None
      end
  end.

Record DataUri : Type := mkDataUri { mimeType : string; base64 : string }.

(** [/^data:([a-zA-Z0-9\/\-\+\.]+);base64,([A-Za-z0-9+/=]+)$/.exec(uri)].
    The expression is anchored at both ends and [;] is outside the first
    class, so the greedy first group can only end where the class ends:
    matching reads the input once from left to right. *)
Definition execDataUri (uri : string) : option DataUri :=
  match stripPrefix "data:" uri with
  | None => None
  | Some afterScheme =>
      let (mime, afterMime) := span isMimeChar afterScheme in
      if isEmpty mime then None
      else match stripPrefix ";base64," afterMime with
           | None => None
           | Some payload =>
               if negb (isEmpty payload) && allChars isBase64Char payload
               then Some (mkDataUri mime payload)
               else None
           end
  end.

Definition invalidDataUri : JsError :=
  mkError
    "Invalid audioDataUri. Expected a data URI containing a MIME type and base64-encoded data, e.g. 'data:audio/wav;base64,<encoded>'"
    None.

Definition validateDataUri (uri : string) : Completion DataUri :=
  match execDataUri uri with
  | None => Thrown invalidDataUri
  | Some m => Returned m
  end.

(** *** [mimeTypeToEncoding]; [None] is [{ encoding: null }] *)

Definition mimeTypeToEncoding (mimeType : string) : option string :=
  let lowerMime := toLowerCase mimeType in
  if includes lowerMime "webm" then Some "WEBM_OPUS"
  else if includes lowerMime "wav" then Some "WAV"
  else if includes lowerMime "mp3" then Some "MP3"
  else if includes lowerMime "flac" then Some "FLAC"
  else if includes lowerMime "amr" then Some "AMR"
  else if includes lowerMime "ogg" then Some "OGG_OPUS"
  else None.

(** The ordered table as the specification words it, and the inference it
    describes: the first entry whose key occurs in the lower-cased media
    type.  [mimeTypeToEncoding] above is the code; the two are compared
    below. *)
Definition codecTable : list (string * string) :=
  [("webm", "WEBM_OPUS"); ("wav", "WAV"); ("mp3", "MP3");
   ("flac", "FLAC"); ("amr", "AMR"); ("ogg", "OGG_OPUS")].

Definition inferCodec (mediaType : string) : option string :=
  option_map snd
    (find (fun entry => includes (toLowerCase mediaType) (fst entry)) codecTable).

Definition MAX_ATTEMPTS : N := 3.
Definition BASE_BACKOFF_MS : N := 500.

(** *** The outside world *)

(** A response whose body was read: [parsed] is what [JSON.parse(text)]
    returns, [None] when it throws. *)
Record Response : Type := mkResponse {
  status : N;
  text : string;
  parsed : option json
}.

(** [resp.ok] *)
Definition ok (r : Response) : bool := (200 <=? status r) && (status r <=? 299).

(** What awaiting [fetchWithTimeout] and then [resp.text()] does: it
    rejects (network failure, the abort of the 60 s timer, a body that
    cannot be read) with an error of the given message, or it delivers a
    response. *)
Inductive FetchOutcome : Type :=
| Rejects (reason : string)
| Responds (r : Response).

Record RecognitionConfig : Type := mkConfig {
  cfgLanguageCode : string;
  enableAutomaticPunctuation : bool;
  model : string;
  encoding : option string
}.

Record RequestBody : Type := mkBody {
  config : RecognitionConfig;
  audioContent : string
}.

(** The events of a run visible from outside: a timer wait of so many
    milliseconds, and a POST to the recognize endpoint with the given key,
    body and timeout. *)
Inductive Event : Type :=
| Wait (ms : N)
| Post (key : string) (body : RequestBody) (timeoutMs : N).

(** *** One iteration of the retry loop *)

(** How the [try] block of one attempt ends. *)
Inductive TryOutcome : Type :=
| TryReturn (transcription : string)
| TryContinue (lastError : JsError)      (* [lastError = ...; continue] *)
| TryThrow (err : JsError).              (* caught by the [catch] below *)

Definition typeErrorToPrimitive : JsError :=
  mkError "Cannot convert object to primitive value" None.

Definition typeErrorNullAlternatives : JsError :=
  mkError "Cannot read properties of null (reading 'alternatives')" None.

(** [json?.error?.message ?? JSON.stringify(json)]: a value, or [None] for
    [undefined] (only when [json] itself is). *)
Definition serverMessageOf (j : option json) : option json :=
  match getOpt (getOpt j "error") "message" with
  | None | Some JNull => option_map (fun v => JStr (stringify v)) j
  | Some m => Some m
  end.

(** A value inside a template literal; [None] when ToString throws. *)
Definition template (v : option json) : option string :=
  match v with
  | None => Some "undefined"
  | Some x => toStr x
  end.

(** [Array.isArray(r.alternatives) && r.alternatives[0]], then
    [alt && typeof alt.transcript === 'string']: the transcript to push,
    if any.  [r] is not null here. *)
Definition firstTranscript (r : json) : option string :=
  match getProp r "alternatives" with
  | Some (JArr (alt :: _)) =>
      if truthy alt then
        match getProp alt "transcript" with
        | Some (JStr s) => Some s
        | _ => None
        end
      else None
  | _ => None
  end.

(** The [for (const r of json.results)] loop; reading a property of a
    [null] element throws. *)
Fixpoint collectTranscripts (results : list json) (transcripts : list string)
  : Completion (list string) :=
  match results with
  | [] => Returned transcripts
  | JNull :: _ => Thrown typeErrorNullAlternatives
  | r :: rest =>
      match firstTranscript r with
      | Some s => collectTranscripts rest (transcripts ++ [s])
      | None => collectTranscripts rest transcripts
      end
  end.

(** [!json || !Array.isArray(json.results) || json.results.length === 0]
    fails exactly when this is [Some] of a non-empty list. *)
Definition resultsOf (j : option json) : option (list json) :=
  match j with
  | None => None
  | Some v =>
      if truthy v then
        match getProp v "results" with
        | Some (JArr (r :: rest)) => Some (r :: rest)
        | _ => None
        end
      else None
  end.

(** The recognized segments of a result list as the specification words
    them: the transcript of the first alternative of each result that has
    one, in the order of the results. *)
Definition segments (results : list json) : list string :=
  flat_map (fun r => match firstTranscript r with
                     | Some s => [s]
                     | None => []
                     end) results.

(** [lastError = err; if (attempt === MAX_ATTEMPTS) throw err; continue;] *)
Definition retryOrThrow (attempt : N) (err : JsError) : TryOutcome :=
  if attempt =? MAX_ATTEMPTS then TryThrow err else TryContinue err.

(** [text ? JSON.parse(text) : undefined]: [None] when [JSON.parse]
    throws, [Some None] for [undefined]. *)
Definition parseBody (resp : Response) : option (option json) :=
  if isEmpty (text resp) then Some None
  else option_map Some (parsed resp).

Definition nonJsonError (resp : Response) : JsError :=
  mkError ("Unexpected non-JSON response from Speech API: " ++ text resp) None.

Definition noResultsError (json : option json) : JsError :=
  mkError ("Speech API returned no transcription results: " ++ stringifyOpt json)
          None.

Definition emptyTranscriptError (json : option json) : JsError :=
  mkError ("Speech API returned empty transcript text: " ++ stringifyOpt json)
          None.

Definition apiError (status : N) (serverMessage : string) : JsError :=
  mkError ("Speech API error (status " ++ decimal status ++ "): " ++ serverMessage)
          None.

(** The [try] block from the answer of the network on. *)
Definition tryBlock (attempt : N) (o : FetchOutcome) : TryOutcome :=
  match o with
  | Rejects reason => TryThrow (mkError reason None)
  | Responds resp =>
      match parseBody resp with
      | None => TryThrow (nonJsonError resp)
      | Some json =>
          if negb (ok resp) then
            match template (serverMessageOf json) with
            | None => TryThrow typeErrorToPrimitive
            | Some serverMessage =>
                let err := apiError (status resp) serverMessage in
                if (status resp =? 401) || (status resp =? 403)
                   || (status resp =? 402)
                then TryThrow err                        (* Non-retriable *)
                else retryOrThrow attempt err
            end
          else
            match resultsOf json with
            | None => retryOrThrow attempt (noResultsError json)
            | Some results =>
                match collectTranscripts results [] with
                | Thrown e => TryThrow e
                | Returned transcripts =>
                    let transcription := trim (join " " transcripts) in
                    if isEmpty transcription
                    then retryOrThrow attempt (emptyTranscriptError json)
                    else TryReturn transcription
                end
            end
      end
  end.

(** How one iteration ends once the [catch] has run. *)
Inductive IterOutcome : Type :=
| IterReturn (transcription : string)
| IterContinue (lastError : JsError)
| IterThrow (err : JsError).

(** The test of the [catch] block on the lower-cased message. *)
Definition authSignature (msg : string) : bool :=
  includes msg "status 401" || includes msg "status 403"
  || includes msg "payment required".

Definition nonRetriableError (lastError : JsError) : JsError :=
  mkError ("Non-retriable error from Google Speech API: " ++ message lastError
           ++ ". Check API key validity, API & billing enabled, and key restrictions.")
          None.

Definition exhaustedError (lastError : JsError) : JsError :=
  mkError ("Transcription failed after " ++ decimal MAX_ATTEMPTS
           ++ " attempts. Last error: " ++ message lastError)
          (Some lastError).

Definition catchBlock (attempt : N) (err : JsError) : IterOutcome :=
  let lastError := err in
  let msg := toLowerCase (message lastError) in
  if authSignature msg then IterThrow (nonRetriableError lastError)
  else if attempt =? MAX_ATTEMPTS then IterThrow (exhaustedError lastError)
  else IterContinue lastError.

Definition iteration (attempt : N) (o : FetchOutcome) : IterOutcome :=
  match tryBlock attempt o with
  | TryReturn t => IterReturn t
  | TryContinue e => IterContinue e
  | TryThrow e => catchBlock attempt e
  end.

(** An answer of HTTP 200 whose body parses to an object with an empty
    [results] array: the parsed body, if the answer is one. *)
Definition emptyResultsBody (o : FetchOutcome) : option json :=
  match o with
  | Rejects _ => None
  | Responds r =>
      if status r =? 200 then
        match parseBody r with
        | Some (Some j) =>
            match getProp j "results" with
            | Some (JArr []) => Some j
            | _ => None
            end
        | _ => None
        end
      else None
  end.

(** *** The flow *)

Section Flow.
(** [process.env.GEMINI_API_KEY] *)
Variable env : option string.
(** What the network does at each attempt. *)
Variable server : N -> FetchOutcome.

Definition backoff (attempt : N) : N := BASE_BACKOFF_MS * 2 ^ (attempt - 1).

(** The waits and calls of one attempt. *)
Definition attemptEvents (key : string) (body : RequestBody) (attempt : N)
  : list Event :=
  (if 1 <? attempt then [Wait (backoff attempt)] else [])
  ++ [Post key body 60000].

Definition unreachableError (lastError : option JsError) : JsError :=
  mkError ("Transcription failed. Last error: "
           ++ match lastError with
              | Some e => message e
              | None => "unknown"
              end) None.

(** [for (let attempt = 1; attempt <= MAX_ATTEMPTS; attempt++)], run from
    [attempt] on; [remaining] counts the iterations the loop test still
    admits, [MAX_ATTEMPTS + 1 - attempt]. *)
Fixpoint attemptLoop (key : string) (body : RequestBody)
         (remaining : nat) (attempt : N) (lastError : option JsError)
  : list Event * Completion string :=
  match remaining with
  | O => ([], Thrown (unreachableError lastError))
  | S remaining' =>
      let events := attemptEvents key body attempt in
      match iteration attempt (server attempt) with
      | IterReturn t => (events, Returned t)
      | IterThrow e => (events, Thrown e)
      | IterContinue e =>
          let (later, done) :=
            attemptLoop key body remaining' (attempt + 1) (Some e) in
          ((events ++ later)%list, done)
      end
  end.

Definition missingApiKey : JsError :=
  mkError
    "No Google API key provided. Set GEMINI_API_KEY in environment or pass apiKey in the input."
    None.

(** [a ?? b] *)
Definition nullish {A} (a b : option A) : option A :=
  match a with Some _ => a | None => b end.

(** The body of the flow before the retry loop: validation, the choice
    of the key, the request body.  It returns the key that goes into the
    URL and the body that is posted. *)
Definition buildRequest (input : TranscribeLiveSpeechInput)
  : Completion (string * RequestBody) :=
  match validateDataUri (audioDataUri input) with
  | Thrown e => Thrown e
  | Returned uri =>
      match nullish (apiKey input) env with
      | None => Thrown missingApiKey                 (* [!undefined] *)
      | Some key =>
          if isEmpty key then Thrown missingApiKey   (* [!''] *)
          else
            let languageCode :=
              match languageCode input with
              | Some l => l
              | None => "en-US"
              end in
            (* [if (encoding) config.encoding = encoding]: every value
               the table yields is a non-empty string. *)
            Returned (key,
                      mkBody (mkConfig languageCode true "default"
                                       (mimeTypeToEncoding (mimeType uri)))
                             (base64 uri))
      end
  end.

Definition transcribeLiveSpeechFlow (input : TranscribeLiveSpeechInput)
  : list Event * Completion string :=
  match buildRequest input with
  | Thrown e => ([], Thrown e)
  | Returned (key, body) =>
      attemptLoop key body (N.to_nat MAX_ATTEMPTS) 1 None
  end.

Definition transcribeLiveSpeech := transcribeLiveSpeechFlow.

(** The number of network calls of a run. *)
Definition isPost (e : Event) : bool :=
  match e with Post _ _ _ => true | Wait _ => false end.

Definition networkCalls (events : list Event) : nat :=
  length (filter isPost events).

Definition waits (events : list Event) : list N :=
  flat_map (fun e => match e with Wait ms => [ms] | _ => [] end) events.

End Flow.

End Speech.

(* ------------------------------------------------------------------ *)
(** ** The container encoding step ([generate-spoken-audio.ts]) *)

Module Wav.

(** A byte is its eight bits, least significant first. *)
Definition byte : Type := ascii.
Definition Buffer : Type := list byte.

(** *** Base64 *)

Definition alphabet : string :=
  "ABCDEFGHIJKLMNOPQRSTUVWXYZabcdefghijklmnopqrstuvwxyz0123456789+/".

Definition pad : ascii := "="%char.

(** A group of six bits, most significant first, as a number below 64. *)
Definition sextet (b5 b4 b3 b2 b1 b0 : bool) : byte :=
  Ascii b0 b1 b2 b3 b4 b5 false false.

Definition digit (s : byte) : ascii :=
  match get (nat_of_ascii s) alphabet with
  | Some c => c
  | None => pad
  end.

Definition undigit (c : ascii) : option byte :=
  option_map ascii_of_nat (index 0 (String c EmptyString) alphabet).

(** Modelled from the spec: [Buffer.prototype.toString('base64')] belongs to
    the platform; this is the standard alphabet with [=] padding, three
    bytes to four digits. *)
Fixpoint base64Encode (bs : Buffer) : string :=
  match bs with
  | [] => EmptyString
  | [Ascii a0 a1 a2 a3 a4 a5 a6 a7] =>
      String (digit (sextet a7 a6 a5 a4 a3 a2))
     (String (digit (sextet a1 a0 false false false false))
     (String pad (String pad EmptyString)))
  | [Ascii a0 a1 a2 a3 a4 a5 a6 a7; Ascii b0 b1 b2 b3 b4 b5 b6 b7] =>
      String (digit (sextet a7 a6 a5 a4 a3 a2))
     (String (digit (sextet a1 a0 b7 b6 b5 b4))
     (String (digit (sextet b3 b2 b1 b0 false false))
     (String pad EmptyString)))
  | Ascii a0 a1 a2 a3 a4 a5 a6 a7 :: Ascii b0 b1 b2 b3 b4 b5 b6 b7
      :: Ascii c0 c1 c2 c3 c4 c5 c6 c7 :: rest =>
      String (digit (sextet a7 a6 a5 a4 a3 a2))
     (String (digit (sextet a1 a0 b7 b6 b5 b4))
     (String (digit (sextet b3 b2 b1 b0 c7 c6))
     (String (digit (sextet c5 c4 c3 c2 c1 c0))
             (base64Encode rest))))
  end.

(** The first byte of a group from its first two digits, and so on. *)
Definition byte1 (s1 s2 : byte) : byte :=
  match s1, s2 with
  | Ascii x0 x1 x2 x3 x4 x5 _ _, Ascii _ _ _ _ y4 y5 _ _ =>
      Ascii y4 y5 x0 x1 x2 x3 x4 x5
  end.

Definition byte2 (s2 s3 : byte) : byte :=
  match s2, s3 with
  | Ascii y0 y1 y2 y3 _ _ _ _, Ascii _ _ z2 z3 z4 z5 _ _ =>
      Ascii z2 z3 z4 z5 y0 y1 y2 y3
  end.

Definition byte3 (s3 s4 : byte) : byte :=
  match s3, s4 with
  | Ascii z0 z1 _ _ _ _ _ _, Ascii w0 w1 w2 w3 w4 w5 _ _ =>
      Ascii w0 w1 w2 w3 w4 w5 z0 z1
  end.

(** Modelled from the spec: the decoder that undoes [base64Encode]; four
    digits to three bytes, padding only in the last group. *)
Fixpoint base64Decode (s : string) : option Buffer :=
  match s with
  | EmptyString => Some []
  | String c1 (String c2 (String c3 (String c4 rest))) =>
      match undigit c1, undigit c2 with
      | Some s1, Some s2 =>
          if Ascii.eqb c3 pad then
            if Ascii.eqb c4 pad && JsString.isEmpty rest
            then Some [byte1 s1 s2] else None
          else
            match undigit c3 with
            | None => None
            | Some s3 =>
                if Ascii.eqb c4 pad then
                  if JsString.isEmpty rest
                  then Some [byte1 s1 s2; byte2 s2 s3] else None
                else
                  match undigit c4, base64Decode rest with
                  | Some s4, Some tail =>
                      Some (byte1 s1 s2 :: byte2 s2 s3 :: byte3 s3 s4 :: tail)
                  | _, _ => None
                  end
            end
      | _, _ => None
      end
  | _ => None
  end.

(** *** The container header *)

Record Format : Type := mkFormat {
  channels : N;
  sampleRate : N;
  bitDepth : N
}.

(** An unsigned integer in [width] bytes, little-endian. *)
Fixpoint le (width : nat) (n : N) : Buffer :=
  match width with
  | O => []
  | S w => ascii_of_N (n mod 256) :: le w (n / 256)
  end.

Fixpoint unle (bs : Buffer) : N :=
  match bs with
  | [] => 0
  | b :: rest => N_of_ascii b + 256 * unle rest
  end.

Definition tag (s : string) : Buffer := list_ascii_of_string s.

Definition headerLength : N := 44.

(** Modelled from the spec: the header [wav.Writer] (package [wav], not
    part of the sources) puts in front of the samples: the standard
    44-byte RIFF/WAVE header of linear PCM, declaring channel count, sample
    rate and bit depth, with the sizes of the payload. *)
Definition header (f : Format) (dataLength : N) : Buffer :=
  (tag "RIFF" ++ le 4 (dataLength + headerLength - 8) ++ tag "WAVE"
   ++ tag "fmt " ++ le 4 16 ++ le 2 1
   ++ le 2 (channels f) ++ le 4 (sampleRate f)
   ++ le 4 (sampleRate f * channels f * bitDepth f / 8)
   ++ le 2 (channels f * bitDepth f / 8)
   ++ le 2 (bitDepth f)
   ++ tag "data" ++ le 4 dataLength)%list.

(** Modelled from the spec: a constant of [wav.Writer] (package [wav], not
    part of the sources), on which the spec is silent: the data size the
    writer puts in its header at the start, not knowing how much will be
    written, [4294967295 - 100]. *)
Definition MAX_WAV : N := 4294967295 - 100.

(** Modelled from the spec: the data size in the header a [wav.Writer]
    (package [wav], not part of the sources) has emitted by the time it
    ends: the size of what was written to it; when nothing was written the
    header keeps the size the writer started with. *)
Definition declaredLength (pcmData : Buffer) : N :=
  match pcmData with
  | [] => MAX_WAV
  | _ :: _ => N.of_nat (length pcmData)
  end.

(** Modelled from the spec: the chunks a [wav.Writer] emits as [data]
    events when [pcmData] is written to it and it is ended: the header,
    then the samples as they came. *)
Definition writerChunks (f : Format) (pcmData : Buffer) : list Buffer :=
  [header f (declaredLength pcmData); pcmData].

(** [toWav]: the writer is set up with [bitDepth: sampleWidth * 8], every
    chunk is pushed on [bufs], and at [end] their concatenation is
    rendered in base64. *)
Definition toWav (pcmData : Buffer) (channels rate sampleWidth : N) : string :=
  let writer := mkFormat channels rate (sampleWidth * 8) in
  let bufs := writerChunks writer pcmData in
  base64Encode (List.concat bufs).

(** The call of the flow, with the default arguments of [toWav]. *)
Definition toWavDefault (pcmData : Buffer) : string := toWav pcmData 1 24000 2.

(** ['data:audio/wav;base64,' + (await toWav(audioBuffer))] *)
Definition audioDataUriOf (audioBuffer : Buffer) : string :=
  ("data:audio/wav;base64," ++ toWavDefault audioBuffer)%string.

Definition bufferEqb (a b : Buffer) : bool :=
  String.eqb (string_of_list_ascii a) (string_of_list_ascii b).

(** A reader consumes a prefix of the bytes and hands on the rest. *)
Definition Reader (A : Type) : Type := Buffer -> option (A * Buffer).

Definition andThen {A B} (r : Reader A) (k : A -> Reader B) : Reader B :=
  fun bs => match r bs with
            | None => None
            | Some (a, rest) => k a rest
            end.

Definition done {A} (a : A) : Reader A := fun bs => Some (a, bs).

Definition reject {A} : Reader A := fun _ => None.

Notation "x <- r ;; k" := (andThen r (fun x => k))
  (at level 61, r at next level, right associativity).

(** The next bytes are the given ones. *)
Definition expect (t : Buffer) : Reader unit :=
  fun bs => if bufferEqb (firstn (length t) bs) t
            then Some (tt, skipn (length t) bs)
            else None.

(** The next [width] bytes, as they are. *)
Definition bytes (width : nat) : Reader Buffer :=
  fun bs => if Nat.ltb (length bs) width then None
            else Some (firstn width bs, skipn width bs).

(** The next [width] bytes as a little-endian unsigned integer. *)
Definition uint (width : nat) : Reader N :=
  raw <- bytes width ;; done (unle raw).

(** Modelled from the spec: reading a container back (no decoder is part
    of the sources): the tags, the size of the format chunk and the PCM
    format code are checked, the declared parameters are read, and as many
    sample bytes are taken as the header declares. *)
Definition readWav : Reader (Format * Buffer) :=
  _ <- expect (tag "RIFF") ;;
  _ <- uint 4 ;;
  _ <- expect (tag "WAVE") ;;
  _ <- expect (tag "fmt ") ;;
  fmtSize <- uint 4 ;;
  code <- uint 2 ;;
  if negb ((fmtSize =? 16) && (code =? 1)) then reject else
  channels <- uint 2 ;;
  sampleRate <- uint 4 ;;
  _ <- uint 4 ;;
  _ <- uint 2 ;;
  bitDepth <- uint 2 ;;
  _ <- expect (tag "data") ;;
  dataLength <- uint 4 ;;
  samples <- bytes (N.to_nat dataLength) ;;
  done (mkFormat channels sampleRate bitDepth, samples).

Definition parseWav (bs : Buffer) : option (Format * Buffer) :=
  option_map fst (readWav bs).

(** Base64-decoding a rendered container and parsing it. *)
Definition decodeContainer (s : string) : option (Format * Buffer) :=
  match base64Decode s with
  | None => None
  | Some bs => parseWav bs
  end.

End Wav.

(* ------------------------------------------------------------------ *)
(** ** Sample requests and service behaviours *)

Module Samples.
Import JsString Json Speech.

Definition request : TranscribeLiveSpeechInput :=
  mkInput "data:audio/webm;base64,GkXfo59ChoEB" None (Some "test-key").

Definition requestBodySent : RequestBody :=
  mkBody (mkConfig "en-US" true "default" (Some "WEBM_OPUS")) "GkXfo59ChoEB".

Definition post : Event := Post "test-key" requestBodySent 60000.

(** [{ error: { message } }] *)
Definition errorJson (message : string) : json :=
  JObj [("error", JObj [("message", JStr message)])].

Definition errorResponse (status : N) (message : string) : FetchOutcome :=
  Responds (mkResponse status (stringify (errorJson message))
                       (Some (errorJson message))).

(** [{ alternatives: [ { transcript } ] }] *)
Definition resultJson (transcript : string) : json :=
  JObj [("alternatives", JArr [JObj [("transcript", JStr transcript)]])].

Definition resultsJson (transcripts : list string) : json :=
  JObj [("results", JArr (map resultJson transcripts))].

Definition okResponse (transcripts : list string) : FetchOutcome :=
  Responds (mkResponse 200 (stringify (resultsJson transcripts))
                       (Some (resultsJson transcripts))).

(** A body that [JSON.parse] rejects. *)
Definition plainResponse (status : N) (text : string) : FetchOutcome :=
  Responds (mkResponse status text None).

Definition always (o : FetchOutcome) : N -> FetchOutcome := fun _ => o.

(** The answers of a list in turn, then the last argument for ever. *)
Definition inTurn (os : list FetchOutcome) (then_ : FetchOutcome)
  : N -> FetchOutcome :=
  fun attempt => nth (N.to_nat (attempt - 1)) os then_.

(** HTTP 500 twice, then 200 with one result. *)
Definition flaky : N -> FetchOutcome :=
  inTurn [errorResponse 500 "backend error"; errorResponse 500 "backend error"]
         (okResponse ["hello world"]).

(** An empty result list next to a field whose text reads like an
    authorization failure. *)
Definition emptyWithNote : json :=
  JObj [("results", JArr []); ("note", JStr "status 401")].

Definition emptyWithNoteResponse : FetchOutcome :=
  Responds (mkResponse 200 (stringify emptyWithNote) (Some emptyWithNote)).

Definition emptyResultsResponse : FetchOutcome := okResponse [].

Definition pcmSample : Wav.Buffer :=
  map ascii_of_N [0; 1; 255; 127; 128; 16; 32].

End Samples.

(* ------------------------------------------------------------------ *)
(** ** Measures of a run *)

Module Runs.
Import JsString Speech.

(** The time a run spends in its timers, in milliseconds. *)
Definition totalWait (events : list Event) : N :=
  fold_right N.add 0 (waits events).

(** The requests a run posts, in order. *)
Definition posts (events : list Event) : list (string * RequestBody * N) :=
  flat_map (fun e => match e with
                     | Post key body timeoutMs => [(key, body, timeoutMs)]
                     | Wait _ => []
                     end) events.

Fixpoint countChar (c : ascii) (s : string) : nat :=
  match s with
  | EmptyString => O
  | String d r => (if Ascii.eqb c d then 1 else 0) + countChar c r
  end.

(** The key the flow works with: [input.apiKey ?? process.env.GEMINI_API_KEY]. *)
Definition effectiveKey (env : option string) (input : TranscribeLiveSpeechInput)
  : option string :=
  nullish (apiKey input) env.

(** [!apiKey] *)
Definition keyMissing (k : option string) : bool :=
  match k with
  | None => true
  | Some key => isEmpty key
  end.

(** The codec names of the table. *)
Definition codecNames : list string :=
  ["WEBM_OPUS"; "WAV"; "MP3"; "FLAC"; "AMR"; "OGG_OPUS"].

(** The error of an answer that the [try] block files as a service error:
    a status outside 2xx other than 401, 402 and 403, with a body that is
    empty or JSON and a server message that renders as text. *)
Definition serviceError (o : FetchOutcome) : option JsError :=
  match o with
  | Rejects _ => None
  | Responds r =>
      if ok r || (status r =? 401) || (status r =? 403) || (status r =? 402)
      then None
      else match parseBody r with
           | Some json =>
               option_map (apiError (status r)) (template (serverMessageOf json))
           | None => None
           end
  end.

(** Whether the [catch] block finds an authorization signature in an error. *)
Definition signed (e : JsError) : bool :=
  authSignature (toLowerCase (message e)).

End Runs.

(* ------------------------------------------------------------------ *)
(** ** The synthesis flow ([generate-spoken-audio.ts]) *)

Module Tts.
Import JsString Speech.

Record GenerateSpokenAudioInput : Type := mkTtsInput {
  ttsText : string;
  voice : option string
}.

(** The argument of [ai.generate] as the flow builds it. *)
Record GenerateRequest : Type := mkGenerateRequest {
  genModel : string;
  responseModalities : list string;
  voiceName : string;
  prompt : string
}.

(** What awaiting [ai.generate] does: it rejects, or it resolves with a
    [media] that is undefined ([None]) or has a [url]. *)
Inductive GenerateOutcome : Type :=
| GenRejects (reason : string)
| GenResolves (mediaUrl : option string).

(** [s.indexOf(c)] for a one-character [c]: the position of the first
    occurrence, [-1] when there is none. *)
Fixpoint indexOfFrom (c : ascii) (s : string) (i : Z) : Z :=
  match s with
  | EmptyString => (-1)%Z
  | String d r => if Ascii.eqb c d then i else indexOfFrom c r (i + 1)%Z
  end.

Definition indexOf (s : string) (c : ascii) : Z := indexOfFrom c s 0%Z.

Fixpoint drop (n : nat) (s : string) : string :=
  match n, s with
  | O, _ => s
  | S _, EmptyString => EmptyString
  | S n', String _ r => drop n' r
  end.

(** [s.substring(start)]: a negative start counts as 0, one beyond the end
    gives the empty string. *)
Definition substring (s : string) (start : Z) : string :=
  drop (Z.to_nat (Z.max 0 start)) s.

Definition noMedia : JsError :=
  mkError "No media returned from TTS generation." None.

Section Flow.

(** [ai.generate] *)
Variable generate : GenerateRequest -> GenerateOutcome.
(** [Buffer.from(s, 'base64')] *)
Variable bufferFromBase64 : string -> Wav.Buffer.

Definition generateRequestOf (input : GenerateSpokenAudioInput) : GenerateRequest :=
  mkGenerateRequest "googleai/gemini-2.5-flash-preview-tts" ["AUDIO"]
    (match voice input with Some v => v | None => "Algenib" end)
    (ttsText input).

(** The flow: the requests it sends to the model, and how it completes. *)
Definition generateSpokenAudioFlow (input : GenerateSpokenAudioInput)
  : list GenerateRequest * Completion string :=
  let request := generateRequestOf input in
  match generate request with
  | GenRejects reason => ([request], Thrown (mkError reason None))
  | GenResolves None => ([request], Thrown noMedia)
  | GenResolves (Some url) =>
      let audioBuffer :=
        bufferFromBase64 (substring url (indexOf url ","%char + 1)%Z) in
      ([request], Returned ("data:audio/wav;base64," ++ Wav.toWav audioBuffer 1 24000 2))
  end.

Definition generateSpokenAudio := generateSpokenAudioFlow.

End Flow.

(** A decoder for [Buffer.from(s, 'base64')] on well-formed input; what the
    platform makes of anything else is left open (here: no bytes). *)
Definition strictBufferFromBase64 (s : string) : Wav.Buffer :=
  match Wav.base64Decode s with
  | Some bs => bs
  | None => []
  end.

End Tts.

(* ------------------------------------------------------------------ *)
(** ** The components ([voice-to-text.tsx], [text-to-voice.tsx],
       [languages.ts]) *)

Module Ui.
Import JsString Speech.

Record Option_ : Type := mkOption { value : string; label : string }.

Definition transcriptionLanguages : list Option_ :=
  [mkOption "en-US" "English (US)";
   mkOption "es-ES" "Spanish (Spain)";
   mkOption "fr-FR" "French (France)";
   mkOption "de-DE" "German (Germany)";
   mkOption "it-IT" "Italian (Italy)";
   mkOption "pt-BR" "Portuguese (Brazil)";
   mkOption "ja-JP" "Japanese";
   mkOption "ko-KR" "Korean";
   mkOption "zh-CN" "Chinese (Mandarin)"].

Definition textToSpeechVoices : list Option_ :=
  [mkOption "Algenib" "Algenib (Female)";
   mkOption "Chara" "Chara (Female)";
   mkOption "Hadrian" "Hadrian (Male)";
   mkOption "Hesperus" "Hesperus (Male)";
   mkOption "Navi" "Navi (Female)";
   mkOption "Pollux" "Pollux (Male)";
   mkOption "Procyon" "Procyon (Male)";
   mkOption "Pherkad" "Pherkad (Male)";
   mkOption "Sargas" "Sargas (Female)";
   mkOption "Sirius" "Sirius (Male)"].

(** [table.find(lang => lang.value === value)?.label || ''] *)
Definition labelIn (table : list Option_) (v : string) : string :=
  match find (fun lang => String.eqb (value lang) v) table with
  | Some lang => label lang
  | None => EmptyString
  end.

Definition getLanguageLabel (v : string) : string :=
  labelIn transcriptionLanguages v.

(** [useState(table[0].value)] *)
Definition initialSelection (table : list Option_) : option string :=
  option_map value (hd_error table).

(** What a handler does to the outside: state setters, toasts, the console,
    the microphone tracks, and the events of the flows it awaits. *)
Inductive Effect : Type :=
| SetIsProcessing (b : bool)
| SetTranscription (s : string)
| SetIsGenerating (b : bool)
| SetAudioUrl (s : string)
| Toast (destructive : bool) (title : string)
| ConsoleError (label : string) (e : JsError)
| StopTracks
| Network (e : Event)
| Generate (request : Tts.GenerateRequest).

(** *** [VoiceToTextCard] *)

(** A [Blob] is its bytes. *)
Definition Blob : Type := Wav.Buffer.

(** [mediaRecorder.ondataavailable]: the chunk list after one event. *)
Definition ondataavailable (audioChunks : list Blob) (data : Blob) : list Blob :=
  if (0 <? length data)%nat then (audioChunks ++ [data])%list else audioChunks.

(** The chunk list after a sequence of events, from [audioChunksRef.current = []]. *)
Definition recorded (deliveries : list Blob) : list Blob :=
  fold_left ondataavailable deliveries [].

(** Modelled from the platform: [reader.readAsDataURL(blob)] for a blob of
    the given type yields [data:<type>;base64,<bytes in base64>]. *)
Definition readAsDataURL (type : string) (blob : Blob) : string :=
  "data:" ++ type ++ ";base64," ++ Wav.base64Encode blob.

(** [mediaRecorder.onstop], with the flow run in place of the awaited call:
    [new Blob(audioChunks, { type: 'audio/webm' })], its data URL, the call
    without [apiKey], and the [try]/[catch]/[finally] around it. *)
Definition onstop (env : option string) (server : N -> FetchOutcome)
           (audioChunks : list Blob) (selectedLanguage : string) : list Effect :=
  let audioBlob := List.concat audioChunks in
  let base64Audio := readAsDataURL "audio/webm" audioBlob in
  let (events, completion) :=
    transcribeLiveSpeech env server
      (mkInput base64Audio (Some selectedLanguage) None) in
  ([SetIsProcessing true]
   ++ map Network events
   ++ match completion with
      | Returned transcription => [SetTranscription transcription]
      | Thrown error =>
          [ConsoleError "Transcription failed:" error;
           Toast true "Transcription Failed"]
      end
   ++ [SetIsProcessing false; StopTracks])%list.

(** *** [TextToVoiceCard] *)

Definition handleGenerateAudio
           (generate : Tts.GenerateRequest -> Tts.GenerateOutcome)
           (bufferFromBase64 : string -> Wav.Buffer)
           (inputText selectedVoice : string) : list Effect :=
  if isEmpty (trim inputText) then [Toast true "Input Text is Empty"]
  else
    let (requests, completion) :=
      Tts.generateSpokenAudio generate bufferFromBase64
        (Tts.mkTtsInput inputText (Some selectedVoice)) in
    ([SetIsGenerating true]
     ++ map Generate requests
     ++ match completion with
        | Returned audioDataUri => [SetAudioUrl audioDataUri]
        | Thrown error =>
            [ConsoleError "Audio generation failed:" error;
             Toast true "Audio Generation Failed"]
        end
     ++ [SetIsGenerating false])%list.

Definition networkEffects (effects : list Effect) : list Event :=
  flat_map (fun e => match e with Network ev => [ev] | _ => [] end) effects.

Definition generateEffects (effects : list Effect) : list Tts.GenerateRequest :=
  flat_map (fun e => match e with Generate r => [r] | _ => [] end) effects.

End Ui.

(* ------------------------------------------------------------------ *)
(** ** Sample inputs of the synthesis flow and the components *)

Module MoreSamples.

(** A media URL as the model returns it: raw PCM in base64. *)
Definition mediaUrl : string :=
  "data:audio/L16;codec=pcm;rate=24000;base64" ++ "," ++ Wav.base64Encode Samples.pcmSample.

Definition ttsService : Tts.GenerateRequest -> Tts.GenerateOutcome :=
  fun _ => Tts.GenResolves (Some mediaUrl).

Definition ttsInput : Tts.GenerateSpokenAudioInput :=
  Tts.mkTtsInput "Hello there" None.

(** Three deliveries of a recorder, the middle one empty. *)
Definition deliveries : list Ui.Blob :=
  [map ascii_of_N [26; 69; 223]; []; map ascii_of_N [163; 66]].

End MoreSamples.

(* ================================================================== *)
(** * Properties *)

Import JsString Json Speech.

(* ------------------------------------------------------------------ *)
(** ** Strings *)

Section StringFacts.

Lemma prefix_app (n a b : string) :
  prefix n a = true -> prefix n (a ++ b) = true.
Proof.
  revert a; induction n as [|c n IH]; intros a H.
  - now destruct (a ++ b).
  - destruct a as [|d a]; simpl in *; [discriminate|].
    destruct (ascii_dec c d); [auto | discriminate].
Qed.

Lemma includes_of_prefix (s n : string) :
  prefix n s = true -> includes s n = true.
Proof. intros H; destruct s; cbn [includes]; rewrite H; reflexivity. Qed.

Lemma includes_app_l (a b n : string) :
  includes a n = true -> includes (a ++ b) n = true.
Proof.
  induction a as [|c a IH]; intros H.
  - apply includes_of_prefix.
    cbn [includes] in H. destruct (prefix n "") eqn:E; [|discriminate].
    now apply (prefix_app n "" b).
  - cbn [includes] in H.
    destruct (prefix n (String c a)) eqn:E.
    + apply includes_of_prefix. now apply (prefix_app n (String c a) b).
    + change (String c a ++ b) with (String c (a ++ b)).
      cbn [includes]. rewrite (IH H).
      now destruct (prefix n (String c (a ++ b))).
Qed.

Lemma includes_app_r (a b n : string) :
  includes b n = true -> includes (a ++ b) n = true.
Proof.
  intros H; induction a as [|c a IH]; [exact H|].
  change (String c a ++ b) with (String c (a ++ b)).
  cbn [includes]. rewrite IH.
  now destruct (prefix n (String c (a ++ b))).
Qed.

Lemma toLowerCase_app (a b : string) :
  toLowerCase (a ++ b) = toLowerCase a ++ toLowerCase b.
Proof. induction a as [|c a IH]; simpl; [|rewrite IH]; reflexivity. Qed.

Lemma lowerChar_idem (c : ascii) : lowerChar (lowerChar c) = lowerChar c.
Proof.
  destruct c as [b0 b1 b2 b3 b4 b5 b6 b7];
    destruct b0, b1, b2, b3, b4, b5, b6, b7; vm_compute; reflexivity.
Qed.

Lemma toLowerCase_idem (s : string) : toLowerCase (toLowerCase s) = toLowerCase s.
Proof.
  induction s as [|c s IH]; simpl; [|rewrite lowerChar_idem, IH]; reflexivity.
Qed.

Lemma isEmpty_true (s : string) : isEmpty s = true <-> s = "".
Proof. destruct s; simpl; split; congruence. Qed.

Lemma isEmpty_false (s : string) : isEmpty s = false <-> s <> "".
Proof. destruct s; simpl; split; congruence. Qed.

Lemma append_empty_r (s : string) : s ++ "" = s.
Proof. induction s as [|c s IH]; simpl; [|rewrite IH]; reflexivity. Qed.

End StringFacts.

(* ------------------------------------------------------------------ *)
(** ** Validation of the data URI *)

Section Validation.

Lemma stripPrefix_app (lit r : string) : stripPrefix lit (lit ++ r) = Some r.
Proof.
  induction lit as [|c lit IH]; simpl; [reflexivity|].
  now rewrite Ascii.eqb_refl.
Qed.

Lemma stripPrefix_inv (lit s r : string) :
  stripPrefix lit s = Some r -> s = lit ++ r.
Proof.
  revert s; induction lit as [|c lit IH]; simpl; intros s H.
  - congruence.
  - destruct s as [|d s]; [discriminate|].
    destruct (Ascii.eqb c d) eqn:E; [|discriminate].
    apply Ascii.eqb_eq in E; subst d. now rewrite (IH _ H).
Qed.

Lemma span_inv (p : ascii -> bool) (s a b : string) :
  span p s = (a, b) -> s = a ++ b /\ allChars p a = true.
Proof.
  revert a b; induction s as [|c s IH]; simpl; intros a b H.
  - inversion H; subst; auto.
  - destruct (p c) eqn:E.
    + destruct (span p s) as [a' b'] eqn:S. inversion H; subst.
      destruct (IH _ _ eq_refl) as [-> Ha]. simpl. now rewrite E, Ha.
    + inversion H; subst; auto.
Qed.

(** A greedy class stops at the first character outside the class. *)
Lemma span_app (p : ascii -> bool) (a : string) (c : ascii) (r : string) :
  allChars p a = true -> p c = false ->
  span p (a ++ String c r) = (a, String c r).
Proof.
  intros Ha Hc; induction a as [|d a IH]; simpl in *.
  - now rewrite Hc.
  - apply andb_true_iff in Ha as [Hd Ha]. now rewrite Hd, (IH Ha).
Qed.

Lemma execDataUri_complete (m p : string) :
  m <> "" -> allChars isMimeChar m = true ->
  p <> "" -> allChars isBase64Char p = true ->
  execDataUri ("data:" ++ m ++ ";base64," ++ p) = Some (mkDataUri m p).
Proof.
  intros Hm Am Hp Ap. unfold execDataUri.
  rewrite stripPrefix_app.
  change (";base64," ++ p) with (String ";" ("base64," ++ p)).
  rewrite (span_app isMimeChar m ";" _ Am eq_refl).
  apply isEmpty_false in Hm, Hp. rewrite Hm.
  change (String ";" ("base64," ++ p)) with (";base64," ++ p).
  now rewrite stripPrefix_app, Hp, Ap.
Qed.

Lemma execDataUri_sound (uri m p : string) :
  execDataUri uri = Some (mkDataUri m p) ->
  uri = "data:" ++ m ++ ";base64," ++ p
  /\ m <> "" /\ allChars isMimeChar m = true
  /\ p <> "" /\ allChars isBase64Char p = true.
Proof.
  unfold execDataUri.
  destruct (stripPrefix "data:" uri) as [rest|] eqn:E1; [|discriminate].
  destruct (span isMimeChar rest) as [mime after] eqn:E2.
  destruct (isEmpty mime) eqn:E3; [discriminate|].
  destruct (stripPrefix ";base64," after) as [payload|] eqn:E4; [|discriminate].
  destruct (negb (isEmpty payload) && allChars isBase64Char payload) eqn:E5;
    [|discriminate].
  intros H; inversion H; subst mime payload; clear H.
  apply andb_true_iff in E5 as [E5 E6]. apply negb_true_iff in E5.
  apply stripPrefix_inv in E1, E4. apply span_inv in E2 as [E2 E7].
  subst. repeat split; auto; now apply isEmpty_false.
Qed.

End Validation.

(** C4.  A string passes [validateDataUri] with media type [m] and payload
    [p] exactly when it reads [data:<m>;base64,<p>] with [m] a non-empty
    string over letters, digits, [/], [-], [+], [.] and [p] a non-empty
    string over the base64 alphabet; the two parts are returned as they
    stand.  On every other string the validation throws the invalid-URI
    error, and the flow then ends with that very error without a single
    wait or network call, whatever the key, the configuration and the
    service. *)
Theorem C4_validation_exact :
  (forall uri m p,
      validateDataUri uri = Returned (mkDataUri m p)
      <-> (uri = "data:" ++ m ++ ";base64," ++ p
           /\ m <> "" /\ allChars isMimeChar m = true
           /\ p <> "" /\ allChars isBase64Char p = true))
  /\ (forall uri,
         (forall m p, validateDataUri uri <> Returned (mkDataUri m p)) ->
         validateDataUri uri = Thrown invalidDataUri)
  /\ (forall env server input,
         validateDataUri (audioDataUri input) = Thrown invalidDataUri ->
         transcribeLiveSpeechFlow env server input = ([], Thrown invalidDataUri)).
Proof.
  split; [|split].
  - intros uri m p; unfold validateDataUri; split.
    + destruct (execDataUri uri) as [[m' p']|] eqn:E; [|discriminate].
      intros H; inversion H; subst. now apply execDataUri_sound.
    + intros (-> & Hm & Am & Hp & Ap).
      now rewrite execDataUri_complete.
  - intros uri H; unfold validateDataUri in *.
    destruct (execDataUri uri) as [[m p]|]; [|reflexivity].
    now destruct (H m p).
  - intros env server input H.
    unfold transcribeLiveSpeechFlow, buildRequest. now rewrite H.
Qed.

(** The claim at a well-formed URI and at one with a parameter in the
    media type, which the pattern does not admit. *)
Lemma C4_validation_exact_witness :
  validateDataUri "data:audio/wav;base64,UklGRg=="
  = Returned (mkDataUri "audio/wav" "UklGRg==")
  /\ transcribeLiveSpeechFlow (Some "key") Samples.flaky
       (mkInput "data:audio/webm;codecs=opus;base64,GkXf" None None)
     = ([], Thrown invalidDataUri).
Proof.
  destruct C4_validation_exact as (Hiff & Helse & Hflow).
  split.
  - apply (proj2 (Hiff _ "audio/wav" "UklGRg==")).
    repeat split; try discriminate; reflexivity.
  - apply Hflow, Helse. intros m p H.
    vm_compute in H. discriminate.
Defined.


(* ------------------------------------------------------------------ *)
(** ** Codec inference *)

(** C5.  [mimeTypeToEncoding] computes the inference the specification
    describes: on every media type it answers with the codec of the first
    entry of the ordered table webm, wav, mp3, flac, amr, ogg whose key
    occurs in the lower-cased media type, and with no codec when no key
    occurs.  Its answer depends on the media type only, and not on its
    letter case.  In particular [audio/webm] gives WEBM_OPUS, [audio/wav]
    gives WAV and [audio/unknown] gives no codec; a media type that names
    two codecs gets the one that comes first in the table. *)
Theorem C5_codec_inference :
  (forall mediaType, mimeTypeToEncoding mediaType = inferCodec mediaType)
  /\ (forall mediaType,
         mimeTypeToEncoding (toLowerCase mediaType) = mimeTypeToEncoding mediaType)
  /\ mimeTypeToEncoding "audio/webm" = Some "WEBM_OPUS"
  /\ mimeTypeToEncoding "audio/wav" = Some "WAV"
  /\ mimeTypeToEncoding "audio/unknown" = None
  /\ mimeTypeToEncoding "AUDIO/WebM" = Some "WEBM_OPUS"
  /\ mimeTypeToEncoding "audio/ogg+wav" = Some "WAV".
Proof.
  repeat split; try reflexivity.
  - intros mediaType. unfold mimeTypeToEncoding, inferCodec, codecTable.
    cbn [find fst snd option_map].
    repeat match goal with
           | |- context [includes ?s ?k] => destruct (includes s k)
           end; reflexivity.
  - intros mediaType. unfold mimeTypeToEncoding.
    now rewrite toLowerCase_idem.
Qed.


(* ------------------------------------------------------------------ *)
(** ** The retry loop *)

Section RetryLoop.

Variable env : option string.
Variable server : N -> FetchOutcome.
Variables (key : string) (body : RequestBody).

Lemma flow_of_request (input : TranscribeLiveSpeechInput) :
  buildRequest env input = Returned (key, body) ->
  transcribeLiveSpeechFlow env server input
  = attemptLoop server key body 3 1 None.
Proof. intros H; unfold transcribeLiveSpeechFlow; now rewrite H. Qed.

Lemma flow_of_failed_request (input : TranscribeLiveSpeechInput) (e : JsError) :
  buildRequest env input = Thrown e ->
  transcribeLiveSpeechFlow env server input = ([], Thrown e).
Proof. intros H; unfold transcribeLiveSpeechFlow; now rewrite H. Qed.

Lemma loop_return remaining attempt lastError t :
  iteration attempt (server attempt) = IterReturn t ->
  attemptLoop server key body (S remaining) attempt lastError
  = (attemptEvents key body attempt, Returned t).
Proof. intros H; cbn [attemptLoop]; now rewrite H. Qed.

Lemma loop_throw remaining attempt lastError e :
  iteration attempt (server attempt) = IterThrow e ->
  attemptLoop server key body (S remaining) attempt lastError
  = (attemptEvents key body attempt, Thrown e).
Proof. intros H; cbn [attemptLoop]; now rewrite H. Qed.

Lemma loop_continue remaining attempt lastError e :
  iteration attempt (server attempt) = IterContinue e ->
  attemptLoop server key body (S remaining) attempt lastError
  = ((attemptEvents key body attempt
      ++ fst (attemptLoop server key body remaining (attempt + 1) (Some e)))%list,
     snd (attemptLoop server key body remaining (attempt + 1) (Some e))).
Proof.
  intros H; cbn [attemptLoop]; rewrite H.
  now destruct (attemptLoop server key body remaining (attempt + 1) (Some e)).
Qed.

Lemma events_first : attemptEvents key body 1 = [Post key body 60000].
Proof. reflexivity. Qed.

Lemma events_second :
  attemptEvents key body 2 = [Wait 1000; Post key body 60000].
Proof. reflexivity. Qed.

Lemma events_third :
  attemptEvents key body 3 = [Wait 2000; Post key body 60000].
Proof. reflexivity. Qed.

End RetryLoop.

(* ------------------------------------------------------------------ *)
(** ** Classification of a failed attempt *)

Section Classification.

Lemma message_apiError (status : N) (m : string) :
  message (apiError status m)
  = "Speech API error (status " ++ decimal status ++ "): " ++ m.
Proof. reflexivity. Qed.

Lemma authSignature_prefix (a b : string) :
  authSignature (toLowerCase a) = true ->
  authSignature (toLowerCase (a ++ b)) = true.
Proof.
  unfold authSignature; rewrite toLowerCase_app; intros H.
  apply orb_true_iff in H as [H|H]; [apply orb_true_iff in H as [H|H]|];
    rewrite (includes_app_l _ _ _ H); rewrite ?orb_true_r; reflexivity.
Qed.

Lemma authSignature_401 (m : string) :
  authSignature (toLowerCase (message (apiError 401 m))) = true.
Proof.
  change (message (apiError 401 m)) with ("Speech API error (status 401): " ++ m).
  now apply authSignature_prefix.
Qed.

Lemma ok_false_4xx (r : Response) :
  400 <= status r -> ok r = false.
Proof.
  intros H; unfold ok. apply andb_false_iff; right. apply N.leb_gt. lia.
Qed.

(** A 401 whose body was understood ends the iteration with the
    non-retriable error, at every attempt. *)
Lemma iteration_401 (attempt : N) (r : Response) (json : option json) (m : string) :
  status r = 401 ->
  parseBody r = Some json ->
  template (serverMessageOf json) = Some m ->
  iteration attempt (Responds r) = IterThrow (nonRetriableError (apiError 401 m)).
Proof.
  intros Hs Hp Ht. unfold iteration, tryBlock.
  rewrite Hp, ok_false_4xx by (rewrite Hs; lia).
  cbn [negb]. rewrite Ht, Hs. cbn [N.eqb Pos.eqb orb].
  unfold catchBlock. now rewrite authSignature_401.
Qed.

(** A body that [JSON.parse] rejects goes through the [catch] block like
    any other thrown error. *)
Lemma iteration_nonJson (attempt : N) (r : Response) :
  parseBody r = None ->
  iteration attempt (Responds r) = catchBlock attempt (nonJsonError r).
Proof. intros H; unfold iteration, tryBlock; now rewrite H. Qed.

Lemma parseBody_nonJson (r : Response) :
  text r <> "" -> parsed r = None -> parseBody r = None.
Proof.
  intros Ht Hp; unfold parseBody.
  apply isEmpty_false in Ht. now rewrite Ht, Hp.
Qed.

End Classification.


(* ------------------------------------------------------------------ *)
(** ** Authorization and billing failures *)

(** C6, as amended.  When the first network attempt of a request answers
    with HTTP status 401 and a body that is empty or parses as JSON, and
    the server message of that body can be rendered as text, the flow
    throws the non-retriable error built from that response at once: its
    only event is the one network call, with no wait and no second
    attempt. *)
Theorem C6_unauthorized_fails_at_once :
  forall env server input key body r json m,
    buildRequest env input = Returned (key, body) ->
    server 1 = Responds r ->
    status r = 401 ->
    parseBody r = Some json ->
    template (serverMessageOf json) = Some m ->
    let run := transcribeLiveSpeechFlow env server input in
    fst run = [Post key body 60000]
    /\ networkCalls (fst run) = 1%nat
    /\ snd run = Thrown (nonRetriableError (apiError 401 m)).
Proof.
  intros env server input key body r json m Hreq Hsrv Hs Hp Ht run.
  subst run. rewrite (flow_of_request _ _ _ _ _ Hreq).
  rewrite (loop_throw server key body 2 1 None
             (nonRetriableError (apiError 401 m))).
  - now rewrite events_first.
  - rewrite Hsrv. now apply iteration_401 with (json := json).
Qed.

Lemma C6_unauthorized_fails_at_once_witness :
  let run := transcribeLiveSpeechFlow None
               (Samples.always (Samples.errorResponse 401 "API key not valid"))
               Samples.request in
  fst run = [Samples.post]
  /\ networkCalls (fst run) = 1%nat
  /\ snd run = Thrown (nonRetriableError (apiError 401 "API key not valid")).
Proof.
  apply (C6_unauthorized_fails_at_once None
           (Samples.always (Samples.errorResponse 401 "API key not valid"))
           Samples.request "test-key" Samples.requestBodySent
           (mkResponse 401 (stringify (Samples.errorJson "API key not valid"))
                       (Some (Samples.errorJson "API key not valid")))
           (Some (Samples.errorJson "API key not valid"))
           "API key not valid");
    reflexivity.
Defined.

(** C6 as stated fails: a 401 whose body is not JSON (here the plain text
    [Unauthorized]) is thrown as a parse failure before the status is
    looked at, the [catch] block finds no authorization signature in it, and
    the loop goes on; with a good answer at the second attempt the flow
    even succeeds, after two network calls. *)
Lemma C6_counterexample :
  let server := Samples.inTurn [Samples.plainResponse 401 "Unauthorized"]
                               (Samples.okResponse ["hello world"]) in
  transcribeLiveSpeechFlow None server Samples.request
  = ([Samples.post; Wait 1000; Samples.post], Returned "hello world")
  /\ ~ (forall env server input key body r,
           buildRequest env input = Returned (key, body) ->
           server 1 = Responds r ->
           status r = 401 ->
           exists e, transcribeLiveSpeechFlow env server input
                     = ([Post key body 60000], Thrown e)).
Proof.
  split; [reflexivity|].
  intros H.
  destruct (H None
              (Samples.inTurn [Samples.plainResponse 401 "Unauthorized"]
                              (Samples.okResponse ["hello world"]))
              Samples.request "test-key" Samples.requestBodySent
              (mkResponse 401 "Unauthorized" None)
              eq_refl eq_refl eq_refl) as [e He].
  vm_compute in He. discriminate.
Qed.

(** C1, the code at the failing input.  HTTP 402 at every attempt, with the
    error body of the service: the flow calls the network three times, with
    the two waits in between, and ends with the error of the exhausted
    loop, not with the non-retriable one. *)
Theorem C1_payment_required_is_retried :
  let run := transcribeLiveSpeechFlow None
               (Samples.always (Samples.errorResponse 402 "Billing account disabled"))
               Samples.request in
  fst run = [Samples.post; Wait 1000; Samples.post; Wait 2000; Samples.post]
  /\ networkCalls (fst run) = 3%nat
  /\ snd run = Thrown (exhaustedError (apiError 402 "Billing account disabled")).
Proof. repeat split; reflexivity. Qed.


(* ------------------------------------------------------------------ *)
(** ** Bodies that are not JSON *)

Lemma loop_starts server key body remaining attempt lastError :
  exists later done,
    attemptLoop server key body (S remaining) attempt lastError
    = ((attemptEvents key body attempt ++ later)%list, done).
Proof.
  cbn [attemptLoop].
  destruct (iteration attempt (server attempt)) as [t|e|e].
  - exists [], (Returned t). now rewrite app_nil_r.
  - destruct (attemptLoop server key body remaining (attempt + 1) (Some e))
      as [later done].
    now exists later, done.
  - exists [], (Thrown e). now rewrite app_nil_r.
Qed.

(** C3, as amended.  An attempt whose response has a non-empty body that
    [JSON.parse] rejects fails with the [Unexpected non-JSON response]
    error, and that error is handled like any other thrown error: when its
    text carries an authorization signature the flow throws the
    non-retriable error; otherwise the third attempt ends the flow with the
    error of the exhausted loop, which carries it as [lastError], and an
    earlier attempt is followed by the next one.  In particular such a
    response at the first attempt is followed by the wait of 1000 ms and a
    second network call. *)
Theorem C3_non_json_is_retried :
  forall attempt r,
    text r <> "" ->
    parsed r = None ->
    iteration attempt (Responds r)
    = (if authSignature (toLowerCase (message (nonJsonError r)))
       then IterThrow (nonRetriableError (nonJsonError r))
       else if attempt =? MAX_ATTEMPTS
            then IterThrow (exhaustedError (nonJsonError r))
            else IterContinue (nonJsonError r))
    /\ (authSignature (toLowerCase (message (nonJsonError r))) = false ->
        forall env server input key body,
          buildRequest env input = Returned (key, body) ->
          server 1 = Responds r ->
          exists later done,
            transcribeLiveSpeechFlow env server input
            = (Post key body 60000 :: Wait 1000 :: Post key body 60000 :: later,
               done)).
Proof.
  intros attempt r Ht Hp.
  pose proof (parseBody_nonJson r Ht Hp) as Hb.
  split.
  - now rewrite (iteration_nonJson _ _ Hb).
  - intros Hsig env server input key body Hreq Hsrv.
    rewrite (flow_of_request _ _ _ _ _ Hreq).
    rewrite (loop_continue server key body 2 1 None (nonJsonError r)).
    + destruct (loop_starts server key body 1 (1 + 1) (Some (nonJsonError r)))
        as (later & done & E).
      rewrite E. exists later, done. reflexivity.
    + rewrite Hsrv, (iteration_nonJson _ _ Hb).
      unfold catchBlock. now rewrite Hsig.
Qed.

Lemma C3_non_json_is_retried_witness :
  let r := mkResponse 502 "<html>Bad Gateway</html>" None in
  iteration 3 (Responds r) = IterThrow (exhaustedError (nonJsonError r))
  /\ exists later done,
      transcribeLiveSpeechFlow None
        (Samples.inTurn [Responds r] (Samples.okResponse ["hello world"]))
        Samples.request
      = (Samples.post :: Wait 1000 :: Samples.post :: later, done).
Proof.
  intros r.
  destruct (C3_non_json_is_retried 3 r) as [Hiter _];
    [discriminate | reflexivity |].
  destruct (C3_non_json_is_retried 1 r) as [_ Hflow];
    [discriminate | reflexivity |].
  split.
  - exact Hiter.
  - apply (Hflow eq_refl None
             (Samples.inTurn [Responds r] (Samples.okResponse ["hello world"]))
             Samples.request "test-key" Samples.requestBodySent);
      reflexivity.
Defined.

(** C3 as stated fails: after a 502 with an HTML body at the first attempt
    the flow makes a second attempt, and here succeeds with it. *)
Lemma C3_counterexample :
  let r := mkResponse 502 "<html>Bad Gateway</html>" None in
  let server := Samples.inTurn [Responds r] (Samples.okResponse ["hello world"]) in
  transcribeLiveSpeechFlow None server Samples.request
  = ([Samples.post; Wait 1000; Samples.post], Returned "hello world")
  /\ ~ (forall env server input key body r,
           buildRequest env input = Returned (key, body) ->
           server 1 = Responds r ->
           text r <> "" ->
           parsed r = None ->
           exists e, transcribeLiveSpeechFlow env server input
                     = ([Post key body 60000], Thrown e)).
Proof.
  split; [reflexivity|].
  intros H.
  destruct (H None
              (Samples.inTurn [Responds (mkResponse 502 "<html>Bad Gateway</html>" None)]
                              (Samples.okResponse ["hello world"]))
              Samples.request "test-key" Samples.requestBodySent
              (mkResponse 502 "<html>Bad Gateway</html>" None)
              eq_refl eq_refl) as [e He]; [discriminate | reflexivity |].
  vm_compute in He. discriminate.
Qed.


(* ------------------------------------------------------------------ *)
(** ** Backoff *)

Lemma loop_last_events server key body attempt lastError :
  fst (attemptLoop server key body 1 attempt lastError)
  = attemptEvents key body attempt.
Proof.
  cbn [attemptLoop].
  destruct (iteration attempt (server attempt)); cbn [fst];
    auto using app_nil_r.
Qed.

(** The last iteration never asks for another one: what the [try] block
    leaves to the [catch] block is thrown on. *)
Lemma iteration_last_settles (o : FetchOutcome) (e : JsError) :
  iteration MAX_ATTEMPTS o <> IterContinue e.
Proof.
  unfold iteration.
  destruct (tryBlock MAX_ATTEMPTS o) as [t|e'|e'] eqn:E.
  - discriminate.
  - exfalso. revert E. unfold tryBlock, retryOrThrow.
    rewrite N.eqb_refl.
    repeat match goal with
           | |- context [match ?x with _ => _ end] =>
               lazymatch x with
               | context [match _ with _ => _ end] => fail
               | _ => destruct x
               end
           end; discriminate.
  - unfold catchBlock. rewrite N.eqb_refl.
    destruct (authSignature _); discriminate.
Qed.

(** C2, as amended.  In a run where the first and the second attempt each
    end with a failure the loop retries, the events are: the first network
    call with no wait before it, a wait of 1000 ms, the second call, a wait
    of 2000 ms, the third call.  The waits are the values of
    [BASE_BACKOFF_MS * 2 ^ (attempt - 1)] at attempts 2 and 3. *)
Theorem C2_backoff_delays :
  forall env server input key body e1 e2,
    buildRequest env input = Returned (key, body) ->
    iteration 1 (server 1) = IterContinue e1 ->
    iteration 2 (server 2) = IterContinue e2 ->
    let events := fst (transcribeLiveSpeechFlow env server input) in
    events = [Post key body 60000;
              Wait 1000; Post key body 60000;
              Wait 2000; Post key body 60000]
    /\ waits events = [backoff 2; backoff 3]
    /\ [backoff 2; backoff 3] = [1000; 2000].
Proof.
  intros env server input key body e1 e2 Hreq H1 H2 events.
  assert (E : events = [Post key body 60000;
                        Wait 1000; Post key body 60000;
                        Wait 2000; Post key body 60000]).
  { subst events. rewrite (flow_of_request _ _ _ _ _ Hreq).
    rewrite (loop_continue server key body 2 1 None e1 H1). cbn [fst].
    rewrite (loop_continue server key body 1 (1 + 1) (Some e1) e2 H2). cbn [fst].
    rewrite loop_last_events. reflexivity. }
  rewrite E. repeat split.
Qed.

Lemma C2_backoff_delays_witness :
  let events := fst (transcribeLiveSpeechFlow None Samples.flaky Samples.request) in
  events = [Samples.post; Wait 1000; Samples.post; Wait 2000; Samples.post]
  /\ waits events = [backoff 2; backoff 3]
  /\ [backoff 2; backoff 3] = [1000; 2000].
Proof.
  apply (C2_backoff_delays None Samples.flaky Samples.request
           "test-key" Samples.requestBodySent
           (apiError 500 "backend error") (apiError 500 "backend error"));
    reflexivity.
Defined.

(** C2 as stated fails: against a service that answers 500, 500 and then
    200 with one result, the flow succeeds at the third attempt and the two
    waits are 1000 ms and 2000 ms, not 500 ms and 1000 ms. *)
Lemma C2_counterexample :
  let run := transcribeLiveSpeechFlow None Samples.flaky Samples.request in
  snd run = Returned "hello world"
  /\ networkCalls (fst run) = 3%nat
  /\ waits (fst run) = [1000; 2000]
  /\ ~ (forall env server input key body e1 e2,
           buildRequest env input = Returned (key, body) ->
           iteration 1 (server 1) = IterContinue e1 ->
           iteration 2 (server 2) = IterContinue e2 ->
           waits (fst (transcribeLiveSpeechFlow env server input)) = [500; 1000]).
Proof.
  repeat split; try reflexivity.
  intros H.
  specialize (H None Samples.flaky Samples.request
                "test-key" Samples.requestBodySent
                (apiError 500 "backend error") (apiError 500 "backend error")
                eq_refl eq_refl eq_refl).
  vm_compute in H. discriminate.
Qed.


(* ------------------------------------------------------------------ *)
(** ** Empty result lists *)

Lemma emptyResultsBody_inv (o : FetchOutcome) (j : json) :
  emptyResultsBody o = Some j ->
  exists r, o = Responds r /\ ok r = true
            /\ parseBody r = Some (Some j) /\ resultsOf (Some j) = None.
Proof.
  unfold emptyResultsBody. destruct o as [reason|r]; [discriminate|].
  destruct (status r =? 200) eqn:Es; [|discriminate].
  destruct (parseBody r) as [[j'|]|] eqn:Ep; try discriminate.
  destruct (getProp j' "results") as [[| | | |[|x l]|]|] eqn:Eg; try discriminate.
  intros H; inversion H; subst j'. exists r. repeat split; auto.
  - apply N.eqb_eq in Es. unfold ok. now rewrite Es.
  - unfold resultsOf. rewrite Eg. now destruct (truthy j).
Qed.

Lemma iteration_no_results (attempt : N) (r : Response) (json : option json) :
  ok r = true ->
  parseBody r = Some json ->
  resultsOf json = None ->
  iteration attempt (Responds r)
  = if attempt =? MAX_ATTEMPTS
    then catchBlock attempt (noResultsError json)
    else IterContinue (noResultsError json).
Proof.
  intros Hok Hp Hr. unfold iteration, tryBlock, retryOrThrow.
  rewrite Hp, Hok, Hr. cbn [negb].
  now destruct (attempt =? MAX_ATTEMPTS).
Qed.

(** C7, as amended.  When each of the three attempts of a request is
    answered with HTTP 200 and a body whose [results] array is empty, and
    the JSON text of the third body carries no authorization signature, the
    flow makes exactly three network calls, with the waits of 1000 ms and
    2000 ms between them, and then throws the error of the exhausted loop,
    whose [lastError] is the no-results error of the third attempt. *)
Theorem C7_empty_results_exhaust :
  forall env server input key body j1 j2 j3,
    buildRequest env input = Returned (key, body) ->
    emptyResultsBody (server 1) = Some j1 ->
    emptyResultsBody (server 2) = Some j2 ->
    emptyResultsBody (server 3) = Some j3 ->
    authSignature (toLowerCase (message (noResultsError (Some j3)))) = false ->
    let run := transcribeLiveSpeechFlow env server input in
    fst run = [Post key body 60000;
               Wait 1000; Post key body 60000;
               Wait 2000; Post key body 60000]
    /\ networkCalls (fst run) = 3%nat
    /\ snd run = Thrown (exhaustedError (noResultsError (Some j3)))
    /\ lastErrorOf (exhaustedError (noResultsError (Some j3)))
       = Some (noResultsError (Some j3)).
Proof.
  intros env server input key body j1 j2 j3 Hreq H1 H2 H3 Hsig run.
  apply emptyResultsBody_inv in H1 as (r1 & S1 & O1 & P1 & R1).
  apply emptyResultsBody_inv in H2 as (r2 & S2 & O2 & P2 & R2).
  apply emptyResultsBody_inv in H3 as (r3 & S3 & O3 & P3 & R3).
  assert (E : run = ([Post key body 60000;
                      Wait 1000; Post key body 60000;
                      Wait 2000; Post key body 60000],
                     Thrown (exhaustedError (noResultsError (Some j3))))).
  { subst run. rewrite (flow_of_request _ _ _ _ _ Hreq).
    rewrite (loop_continue server key body 2 1 None (noResultsError (Some j1)))
      by (rewrite S1; now rewrite (iteration_no_results 1 r1 _ O1 P1 R1)).
    change (1 + 1) with 2.
    rewrite (loop_continue server key body 1 2 _ (noResultsError (Some j2)))
      by (rewrite S2; now rewrite (iteration_no_results 2 r2 _ O2 P2 R2)).
    change (2 + 1) with 3.
    rewrite (loop_throw server key body 0 3 _
               (exhaustedError (noResultsError (Some j3)))).
    - reflexivity.
    - rewrite S3, (iteration_no_results 3 r3 _ O3 P3 R3).
      change (3 =? MAX_ATTEMPTS) with true. cbv iota.
      unfold catchBlock. now rewrite Hsig. }
  rewrite E. repeat split.
Qed.

Lemma C7_empty_results_exhaust_witness :
  let run := transcribeLiveSpeechFlow None
               (Samples.always Samples.emptyResultsResponse) Samples.request in
  fst run = [Samples.post; Wait 1000; Samples.post; Wait 2000; Samples.post]
  /\ networkCalls (fst run) = 3%nat
  /\ snd run = Thrown (exhaustedError
                         (noResultsError (Some (Samples.resultsJson []))))
  /\ lastErrorOf (exhaustedError (noResultsError (Some (Samples.resultsJson []))))
     = Some (noResultsError (Some (Samples.resultsJson []))).
Proof.
  apply (C7_empty_results_exhaust None
           (Samples.always Samples.emptyResultsResponse) Samples.request
           "test-key" Samples.requestBodySent
           (Samples.resultsJson []) (Samples.resultsJson [])
           (Samples.resultsJson []));
    reflexivity.
Defined.

(** C7 as stated fails: with a third body that has an empty [results]
    array next to a field whose text reads [status 401], the flow still
    makes three calls, but the error it throws is the non-retriable one,
    which has no [lastError]. *)
Lemma C7_counterexample :
  let run := transcribeLiveSpeechFlow None
               (Samples.always Samples.emptyWithNoteResponse) Samples.request in
  networkCalls (fst run) = 3%nat
  /\ snd run = Thrown (nonRetriableError
                         (noResultsError (Some Samples.emptyWithNote)))
  /\ lastErrorOf (nonRetriableError (noResultsError (Some Samples.emptyWithNote)))
     = None
  /\ ~ (forall env server input key body j1 j2 j3,
           buildRequest env input = Returned (key, body) ->
           emptyResultsBody (server 1) = Some j1 ->
           emptyResultsBody (server 2) = Some j2 ->
           emptyResultsBody (server 3) = Some j3 ->
           exists cause,
             snd (transcribeLiveSpeechFlow env server input)
             = Thrown (exhaustedError cause)).
Proof.
  repeat split; try reflexivity.
  intros H.
  destruct (H None (Samples.always Samples.emptyWithNoteResponse)
              Samples.request "test-key" Samples.requestBodySent
              Samples.emptyWithNote Samples.emptyWithNote Samples.emptyWithNote
              eq_refl eq_refl eq_refl eq_refl) as [cause Hc].
  vm_compute in Hc. discriminate.
Qed.


(* ------------------------------------------------------------------ *)
(** ** Aggregation of the transcript *)

Section Aggregation.

Lemma collectTranscripts_segments (results : list json) :
  forall acc ts,
    collectTranscripts results acc = Returned ts ->
    ts = (acc ++ segments results)%list.
Proof.
  induction results as [|r rest IH]; intros acc ts H.
  - cbn in H. inversion H. now rewrite app_nil_r.
  - assert (Hstep :
        collectTranscripts rest
          (acc ++ match firstTranscript r with Some s => [s] | None => [] end)%list
        = Returned ts).
    { destruct r; cbn [collectTranscripts] in H; try discriminate;
        match type of H with
        | context [firstTranscript ?x] =>
            destruct (firstTranscript x); [exact H | now rewrite app_nil_r]
        end. }
    apply IH in Hstep. rewrite Hstep.
    cbn [segments flat_map]. now rewrite app_assoc.
Qed.

Lemma catchBlock_never_returns attempt e t :
  catchBlock attempt e <> IterReturn t.
Proof.
  unfold catchBlock.
  destruct (authSignature _); [discriminate|].
  destruct (attempt =? MAX_ATTEMPTS); discriminate.
Qed.

Lemma retryOrThrow_never_returns attempt e t :
  retryOrThrow attempt e <> TryReturn t.
Proof. unfold retryOrThrow; destruct (attempt =? MAX_ATTEMPTS); discriminate. Qed.

(** An iteration returns only from the last line of the [try] block. *)
Lemma iteration_return_inv attempt o t :
  iteration attempt o = IterReturn t ->
  exists r json results,
    o = Responds r /\ ok r = true /\ parseBody r = Some json
    /\ resultsOf json = Some results
    /\ t = trim (join " " (segments results))
    /\ isEmpty t = false.
Proof.
  unfold iteration.
  destruct (tryBlock attempt o) as [t'|e|e] eqn:E; try discriminate.
  2:{ intros H; now apply catchBlock_never_returns in H. }
  intros H; inversion H; subst t'; clear H.
  unfold tryBlock in E.
  destruct o as [reason|r]; [discriminate|].
  destruct (parseBody r) as [json|] eqn:Ep; [|discriminate].
  destruct (ok r) eqn:Eo; cbn [negb] in E.
  2:{ destruct (template (serverMessageOf json)); [|discriminate].
      destruct ((status r =? 401) || (status r =? 403) || (status r =? 402));
        [discriminate|].
      now apply retryOrThrow_never_returns in E. }
  destruct (resultsOf json) as [results|] eqn:Er.
  2:{ now apply retryOrThrow_never_returns in E. }
  destruct (collectTranscripts results []) as [ts|e] eqn:Ec; [|discriminate].
  apply collectTranscripts_segments in Ec. cbn [app] in Ec. subst ts.
  destruct (isEmpty (trim (join " " (segments results)))) eqn:Ee.
  - now apply retryOrThrow_never_returns in E.
  - inversion E; subst t. exists r, json, results. repeat split; auto.
Qed.

Lemma loop_return_inv server key body remaining :
  forall attempt lastError events t,
    attemptLoop server key body remaining attempt lastError
    = (events, Returned t) ->
    exists k, attempt <= k < attempt + N.of_nat remaining
              /\ iteration k (server k) = IterReturn t.
Proof.
  induction remaining as [|n IH]; intros attempt lastError events t H.
  - discriminate.
  - cbn [attemptLoop] in H.
    destruct (iteration attempt (server attempt)) as [t'|e|e] eqn:E.
    + inversion H; subst. exists attempt. split; [lia | exact E].
    + destruct (attemptLoop server key body n (attempt + 1) (Some e))
        as [later done] eqn:L.
      inversion H; subst.
      destruct (IH _ _ _ _ L) as (k & Hk & Hit).
      exists k. split; [lia | exact Hit].
    + discriminate.
Qed.

(** A 2xx answer whose aggregate is empty after trimming does not make the
    iteration return. *)
Lemma iteration_empty_aggregate attempt r json results t :
  ok r = true ->
  parseBody r = Some json ->
  resultsOf json = Some results ->
  trim (join " " (segments results)) = "" ->
  iteration attempt (Responds r) <> IterReturn t.
Proof.
  intros Ho Hp Hr He H.
  apply iteration_return_inv in H
    as (r' & json' & results' & Hresp & _ & Hp' & Hr' & Ht & Hne).
  inversion Hresp; subst r'.
  rewrite Hp in Hp'. inversion Hp'; subst json'.
  rewrite Hr in Hr'. inversion Hr'; subst results'.
  rewrite He in Ht. subst t. discriminate.
Qed.

End Aggregation.

(** C8.  Whenever the flow returns a transcription, some attempt between 1
    and 3 received a 2xx response whose parsed body has a non-empty
    [results] array, and the transcription is the recognized segments of
    that array, in the order of the array, joined with single spaces and
    trimmed; it is not the empty string.  A 2xx response whose aggregate is
    empty after trimming never makes its attempt return: that attempt is a
    failure.  The results [a] and [b] give [a b]. *)
Theorem C8_success_is_trimmed_aggregate :
  (forall env server input events t,
      transcribeLiveSpeechFlow env server input = (events, Returned t) ->
      exists attempt r json results,
        1 <= attempt <= MAX_ATTEMPTS
        /\ server attempt = Responds r /\ ok r = true
        /\ parseBody r = Some json /\ resultsOf json = Some results
        /\ t = trim (join " " (segments results))
        /\ t <> "")
  /\ (forall attempt r json results t,
         ok r = true ->
         parseBody r = Some json ->
         resultsOf json = Some results ->
         trim (join " " (segments results)) = "" ->
         iteration attempt (Responds r) <> IterReturn t)
  /\ transcribeLiveSpeechFlow None (Samples.always (Samples.okResponse ["a"; "b"]))
       Samples.request
     = ([Samples.post], Returned "a b").
Proof.
  split; [|split].
  - intros env server input events t H.
    unfold transcribeLiveSpeechFlow in H.
    destruct (buildRequest env input) as [[key body]|e]; [|discriminate].
    apply loop_return_inv in H as (k & Hk & Hit).
    apply iteration_return_inv in Hit
      as (r & json & results & Hs & Ho & Hp & Hr & Ht & Hne).
    exists k, r, json, results.
    repeat split; auto; try (unfold MAX_ATTEMPTS in *; lia).
    now apply isEmpty_false.
  - intros attempt r json results t.
    apply iteration_empty_aggregate.
  - reflexivity.
Qed.

Lemma C8_success_is_trimmed_aggregate_witness :
  (exists attempt r json results,
      1 <= attempt <= MAX_ATTEMPTS
      /\ Samples.flaky attempt = Responds r /\ ok r = true
      /\ parseBody r = Some json /\ resultsOf json = Some results
      /\ "hello world" = trim (join " " (segments results))
      /\ "hello world" <> "")
  /\ iteration 1 (Samples.okResponse [" "; ""]) <> IterReturn "".
Proof.
  destruct C8_success_is_trimmed_aggregate as (Hsucc & Hempty & _).
  split.
  - apply (Hsucc None Samples.flaky Samples.request
             [Samples.post; Wait 1000; Samples.post; Wait 2000; Samples.post]
             "hello world").
    reflexivity.
  - apply (Hempty 1
             (mkResponse 200 (stringify (Samples.resultsJson [" "; ""]))
                         (Some (Samples.resultsJson [" "; ""])))
             (Some (Samples.resultsJson [" "; ""]))
             (map Samples.resultJson [" "; ""]) "");
      reflexivity.
Defined.


(* ------------------------------------------------------------------ *)
(** ** The choice of the key *)

(** C10.  A request that passes validation and carries an [apiKey] equal to
    the empty string ends with the missing-key error before any wait or
    network call, whatever the configured key is.  The configured key is
    looked at only for a request without [apiKey]: a request that has one
    runs the same under every configuration, and a request that has none
    runs as if the configured key had been passed in it. *)
Theorem C10_empty_key_is_no_key :
  (forall env server input uri,
      validateDataUri (audioDataUri input) = Returned uri ->
      apiKey input = Some "" ->
      transcribeLiveSpeechFlow env server input = ([], Thrown missingApiKey))
  /\ (forall env env' server input k,
         apiKey input = Some k ->
         transcribeLiveSpeechFlow env server input
         = transcribeLiveSpeechFlow env' server input)
  /\ (forall env server uri lang,
         transcribeLiveSpeechFlow env server (mkInput uri lang None)
         = transcribeLiveSpeechFlow None server (mkInput uri lang env)).
Proof.
  split; [|split].
  - intros env server input uri Hv Hk.
    unfold transcribeLiveSpeechFlow, buildRequest.
    now rewrite Hv, Hk.
  - intros env env' server input k Hk.
    unfold transcribeLiveSpeechFlow, buildRequest. now rewrite Hk.
  - intros env server uri lang.
    unfold transcribeLiveSpeechFlow, buildRequest; cbn [audioDataUri apiKey].
    now destruct env.
Qed.

Lemma C10_empty_key_is_no_key_witness :
  transcribeLiveSpeechFlow (Some "configured-key") Samples.flaky
    (mkInput "data:audio/wav;base64,UklGRg==" None (Some ""))
  = ([], Thrown missingApiKey)
  /\ transcribeLiveSpeechFlow (Some "configured-key") Samples.flaky Samples.request
     = transcribeLiveSpeechFlow None Samples.flaky Samples.request.
Proof.
  destruct C10_empty_key_is_no_key as (Hempty & Hpresent & _).
  split.
  - apply (Hempty (Some "configured-key") Samples.flaky
             (mkInput "data:audio/wav;base64,UklGRg==" None (Some ""))
             (mkDataUri "audio/wav" "UklGRg=="));
      reflexivity.
  - apply (Hpresent (Some "configured-key") None Samples.flaky
             Samples.request "test-key").
    reflexivity.
Defined.


(* ------------------------------------------------------------------ *)
(** ** The container round trip *)

Section Base64.
Import Wav.

Lemma undigit_digit (b5 b4 b3 b2 b1 b0 : bool) :
  undigit (digit (sextet b5 b4 b3 b2 b1 b0)) = Some (sextet b5 b4 b3 b2 b1 b0).
Proof. destruct b5, b4, b3, b2, b1, b0; vm_compute; reflexivity. Qed.

Lemma digit_not_pad (b5 b4 b3 b2 b1 b0 : bool) :
  Ascii.eqb (digit (sextet b5 b4 b3 b2 b1 b0)) pad = false.
Proof. destruct b5, b4, b3, b2, b1, b0; vm_compute; reflexivity. Qed.

(** Lists three elements at a time. *)
Lemma list_ind3 {A} (P : list A -> Prop) :
  P [] ->
  (forall a, P [a]) ->
  (forall a b, P [a; b]) ->
  (forall a b c l, P l -> P (a :: b :: c :: l)) ->
  forall l, P l.
Proof.
  intros H0 H1 H2 H3 l.
  enough (H : P l /\ (forall a, P (a :: l)) /\ (forall a b, P (a :: b :: l)))
    by apply H.
  induction l as [|x l (IH0 & IH1 & IH2)]; repeat split; auto.
Qed.

Lemma base64_roundtrip (bs : Buffer) : base64Decode (base64Encode bs) = Some bs.
Proof.
  induction bs as [| a | a b | a b c rest IH] using list_ind3.
  - reflexivity.
  - destruct a as [a0 a1 a2 a3 a4 a5 a6 a7].
    cbn [base64Encode base64Decode].
    rewrite !undigit_digit. reflexivity.
  - destruct a as [a0 a1 a2 a3 a4 a5 a6 a7], b as [b0 b1 b2 b3 b4 b5 b6 b7].
    cbn [base64Encode base64Decode].
    rewrite !undigit_digit, digit_not_pad. reflexivity.
  - destruct a as [a0 a1 a2 a3 a4 a5 a6 a7], b as [b0 b1 b2 b3 b4 b5 b6 b7],
      c as [c0 c1 c2 c3 c4 c5 c6 c7].
    cbn [base64Encode base64Decode].
    rewrite !undigit_digit, !digit_not_pad, IH. reflexivity.
Qed.

End Base64.

Section Container.
Import Wav.
Local Open Scope list_scope.

Lemma bufferEqb_refl (a : Buffer) : bufferEqb a a = true.
Proof. unfold bufferEqb. apply String.eqb_refl. Qed.

Lemma firstn_length_app {A} (a rest : list A) :
  firstn (length a) (a ++ rest) = a.
Proof. induction a as [|x a IH]; cbn; [|rewrite IH]; reflexivity. Qed.

Lemma skipn_length_app {A} (a rest : list A) :
  skipn (length a) (a ++ rest) = rest.
Proof. induction a as [|x a IH]; cbn; auto. Qed.

Lemma expect_app (t rest : Buffer) : expect t (t ++ rest) = Some (tt, rest).
Proof.
  unfold expect.
  now rewrite firstn_length_app, skipn_length_app, bufferEqb_refl.
Qed.

Lemma bytes_app (a rest : Buffer) :
  bytes (length a) (a ++ rest) = Some (a, rest).
Proof.
  unfold bytes.
  replace (Nat.ltb (length (a ++ rest)) (length a)) with false.
  - now rewrite firstn_length_app, skipn_length_app.
  - symmetry. apply PeanoNat.Nat.ltb_ge. rewrite length_app.
    apply PeanoNat.Nat.le_add_r.
Qed.

Lemma length_le (width : nat) : forall n, length (le width n) = width.
Proof. induction width as [|w IH]; intros n; cbn; [|rewrite IH]; reflexivity. Qed.

(** Reading back what [le] wrote gives the number up to the width. *)
Lemma unle_le (width : nat) :
  forall n, unle (le width n) = n mod 256 ^ N.of_nat width.
Proof.
  induction width as [|w IH]; intros n.
  - cbn. now rewrite N.mod_1_r.
  - cbn [le unle]. rewrite IH.
    rewrite N_ascii_embedding by (apply N.mod_lt; discriminate).
    rewrite Nat2N.inj_succ, N.pow_succ_r'.
    now rewrite N.Div0.mod_mul_r.
Qed.

Lemma uint_le (width : nat) (n : N) (rest : Buffer) :
  uint width (le width n ++ rest) = Some (n mod 256 ^ N.of_nat width, rest).
Proof.
  unfold uint, andThen, done.
  rewrite <- (length_le width n) at 1.
  now rewrite bytes_app, unle_le.
Qed.

Lemma uint_le_small (width : nat) (n : N) (rest : Buffer) :
  n < 256 ^ N.of_nat width ->
  uint width (le width n ++ rest) = Some (n, rest).
Proof. intros H. now rewrite uint_le, N.mod_small. Qed.

(** The reader takes the header apart and then asks for as many sample
    bytes as it declares. *)
Lemma readWav_header_then (f : Format) (declared : N) (rest : Buffer) :
  channels f < 2 ^ 16 ->
  sampleRate f < 2 ^ 32 ->
  bitDepth f < 2 ^ 16 ->
  declared < 2 ^ 32 ->
  readWav (header f declared ++ rest)
  = andThen (bytes (N.to_nat declared)) (fun samples => done (f, samples)) rest.
Proof.
  intros Hc Hr Hb Hl. unfold header. rewrite <- !app_assoc.
  unfold readWav. unfold andThen at 1 2 3 4 5 6.
  rewrite expect_app, uint_le, !expect_app.
  rewrite (uint_le_small 4 16) by reflexivity.
  rewrite (uint_le_small 2 1) by reflexivity.
  cbn [N.eqb Pos.eqb andb negb].
  unfold andThen at 1 2 3 4 5 6 7.
  rewrite (uint_le_small 2 (channels f)) by exact Hc.
  rewrite (uint_le_small 4 (sampleRate f)) by exact Hr.
  rewrite uint_le, uint_le.
  rewrite (uint_le_small 2 (bitDepth f)) by exact Hb.
  rewrite expect_app.
  rewrite (uint_le_small 4 declared) by exact Hl.
  now destruct f.
Qed.

(** The reader takes apart what the header puts together. *)
Lemma readWav_header (f : Format) (pcm : Buffer) :
  channels f < 2 ^ 16 ->
  sampleRate f < 2 ^ 32 ->
  bitDepth f < 2 ^ 16 ->
  N.of_nat (length pcm) < 2 ^ 32 ->
  readWav (header f (N.of_nat (length pcm)) ++ pcm) = Some ((f, pcm), []).
Proof.
  intros Hc Hr Hb Hl.
  rewrite (readWav_header_then f _ pcm Hc Hr Hb Hl).
  unfold andThen. rewrite Nat2N.id.
  rewrite <- (app_nil_r pcm) at 2. now rewrite bytes_app.
Qed.


Lemma declaredLength_nonempty (pcm : Buffer) :
  pcm <> [] -> declaredLength pcm = N.of_nat (length pcm).
Proof. destruct pcm; [now intros H | reflexivity]. Qed.

(** The container of given PCM data, before the base64 rendering. *)
Lemma decodeContainer_toWav (pcm : Buffer) (channels rate sampleWidth : N) :
  decodeContainer (toWav pcm channels rate sampleWidth)
  = parseWav (header (mkFormat channels rate (sampleWidth * 8))
                     (declaredLength pcm) ++ pcm).
Proof.
  unfold decodeContainer, toWav, writerChunks.
  rewrite base64_roundtrip. cbn [List.concat]. now rewrite app_nil_r.
Qed.

Lemma toWav_round_trip (pcm : Buffer) (channels rate sampleWidth : N) :
  pcm <> [] ->
  channels < 2 ^ 16 ->
  rate < 2 ^ 32 ->
  sampleWidth * 8 < 2 ^ 16 ->
  N.of_nat (length pcm) < 2 ^ 32 ->
  decodeContainer (toWav pcm channels rate sampleWidth)
  = Some (mkFormat channels rate (sampleWidth * 8), pcm).
Proof.
  intros Hne Hc Hr Hw Hl.
  rewrite decodeContainer_toWav, (declaredLength_nonempty pcm Hne).
  unfold parseWav. now rewrite readWav_header.
Qed.


End Container.





(* ================================================================== *)
(** * Further properties of the transcription flow *)

Section Runs.
Import Runs.

(** A run that got past validation and the key has one of three shapes. *)
Lemma run_shape env server input key body :
  buildRequest env input = Returned (key, body) ->
  let events := fst (transcribeLiveSpeechFlow env server input) in
  events = [Post key body 60000]
  \/ events = [Post key body 60000; Wait 1000; Post key body 60000]
  \/ events = [Post key body 60000; Wait 1000; Post key body 60000;
               Wait 2000; Post key body 60000].
Proof.
  intros Hreq events. subst events.
  rewrite (flow_of_request _ server _ _ _ Hreq).
  cbn [attemptLoop].
  destruct (iteration 1 (server 1)); auto.
  destruct (iteration (1 + 1) (server (1 + 1))); auto.
  destruct (iteration (1 + 1 + 1) (server (1 + 1 + 1))); auto.
Qed.

Lemma run_without_request env server input e :
  buildRequest env input = Thrown e ->
  transcribeLiveSpeechFlow env server input = ([], Thrown e).
Proof. apply flow_of_failed_request. Qed.

Lemma buildRequest_inv env input key body :
  buildRequest env input = Returned (key, body) ->
  exists uri,
    validateDataUri (audioDataUri input) = Returned uri
    /\ effectiveKey env input = Some key
    /\ key <> ""
    /\ body = mkBody (mkConfig (match languageCode input with
                                | Some l => l
                                | None => "en-US"
                                end)
                               true "default"
                               (mimeTypeToEncoding (mimeType uri)))
                     (base64 uri).
Proof.
  unfold buildRequest, effectiveKey.
  destruct (validateDataUri (audioDataUri input)) as [uri|e]; [|discriminate].
  destruct (nullish (apiKey input) env) as [k|]; [|discriminate].
  destruct (isEmpty k) eqn:E; [discriminate|].
  intros H; inversion H; subst. exists uri. repeat split.
  now apply isEmpty_false.
Qed.

End Runs.

(** X1.  Whatever the request, the configuration and the service, a run
    makes at most three network calls and its timer waits are none, 1000 ms
    alone, or 1000 ms and then 2000 ms: one wait less than calls, never more
    than 3000 ms in all. *)
Theorem run_is_bounded :
  forall env server input,
    let events := fst (transcribeLiveSpeechFlow env server input) in
    (networkCalls events <= 3)%nat
    /\ (waits events = [] \/ waits events = [1000]
        \/ waits events = [1000; 2000])
    /\ length (waits events) = (networkCalls events - 1)%nat
    /\ Runs.totalWait events <= 3000.
Proof.
  intros env server input events.
  destruct (buildRequest env input) as [[key body]|e] eqn:Hreq.
  - destruct (run_shape env server input key body Hreq) as [E|[E|E]];
      fold events in E; rewrite E; cbn; repeat split; auto; lia.
  - subst events. rewrite (run_without_request _ _ _ _ Hreq).
    cbn; repeat split; auto; lia.
Qed.

(** X2.  Every network call of a run posts the same request: the key is
    [apiKey ?? GEMINI_API_KEY] and is not empty, the audio content is the
    payload the validation extracted, the language code is the one of the
    input or [en-US], the encoding is the one inferred from the media type,
    punctuation is on, the model is [default], and the timeout is 60 s. *)
Theorem every_call_posts_the_validated_request :
  forall env server input key body timeoutMs,
    In (key, body, timeoutMs)
       (Runs.posts (fst (transcribeLiveSpeechFlow env server input))) ->
    exists uri,
      validateDataUri (audioDataUri input) = Returned uri
      /\ Runs.effectiveKey env input = Some key
      /\ key <> ""
      /\ body = mkBody (mkConfig (match languageCode input with
                                  | Some l => l
                                  | None => "en-US"
                                  end)
                                 true "default"
                                 (mimeTypeToEncoding (mimeType uri)))
                       (base64 uri)
      /\ timeoutMs = 60000.
Proof.
  intros env server input key body timeoutMs Hin.
  destruct (buildRequest env input) as [[key' body']|e] eqn:Hreq.
  - destruct (buildRequest_inv _ _ _ _ Hreq) as (uri & Hv & Hk & Hne & Hb).
    assert (E : (key, body, timeoutMs) = (key', body', 60000)).
    { destruct (run_shape env server input key' body' Hreq) as [E|[E|E]];
        rewrite E in Hin; cbn in Hin; intuition congruence. }
    inversion E; subst key body timeoutMs.
    exists uri. repeat split; auto.
  - rewrite (run_without_request _ _ _ _ Hreq) in Hin. destruct Hin.
Qed.

Lemma every_call_posts_the_validated_request_witness :
  exists uri,
    validateDataUri (audioDataUri Samples.request) = Returned uri
    /\ Runs.effectiveKey (Some "configured-key") Samples.request = Some "test-key"
    /\ "test-key" <> ""
    /\ Samples.requestBodySent
       = mkBody (mkConfig (match languageCode Samples.request with
                           | Some l => l
                           | None => "en-US"
                           end)
                          true "default"
                          (mimeTypeToEncoding (mimeType uri)))
                (base64 uri)
    /\ 60000 = 60000.
Proof.
  apply (every_call_posts_the_validated_request (Some "configured-key")
           Samples.flaky Samples.request "test-key" Samples.requestBodySent 60000).
  vm_compute. left. reflexivity.
Defined.

(** X3.  For a request whose data URI is valid: when the key the flow
    works with, [apiKey ?? GEMINI_API_KEY], is absent or empty, the flow
    throws the missing-key error without any network call, and an empty
    configured key counts as none; the other way round, a run that makes a
    network call had a key that is not empty. *)
Theorem missing_key_stops_before_network :
  forall env server input uri,
    validateDataUri (audioDataUri input) = Returned uri ->
    (Runs.keyMissing (Runs.effectiveKey env input) = true ->
     transcribeLiveSpeechFlow env server input = ([], Thrown missingApiKey))
    /\ ((1 <= networkCalls (fst (transcribeLiveSpeechFlow env server input)))%nat ->
        Runs.keyMissing (Runs.effectiveKey env input) = false).
Proof.
  intros env server input uri Hv.
  assert (Hmiss : Runs.keyMissing (Runs.effectiveKey env input) = true ->
                  transcribeLiveSpeechFlow env server input
                  = ([], Thrown missingApiKey)).
  { unfold Runs.keyMissing, Runs.effectiveKey.
    unfold transcribeLiveSpeechFlow, buildRequest. rewrite Hv.
    destruct (nullish (apiKey input) env) as [k|]; [|reflexivity].
    now intros ->. }
  split; [exact Hmiss|].
  intros Hcalls.
  destruct (Runs.keyMissing (Runs.effectiveKey env input)) eqn:E; [|reflexivity].
  rewrite (Hmiss eq_refl) in Hcalls. cbn in Hcalls. lia.
Qed.

Lemma missing_key_stops_before_network_witness :
  transcribeLiveSpeechFlow (Some "") Samples.flaky
    (mkInput "data:audio/wav;base64,UklGRg==" None None)
  = ([], Thrown missingApiKey)
  /\ Runs.keyMissing
       (Runs.effectiveKey (Some "configured-key")
          (mkInput "data:audio/wav;base64,UklGRg==" None None))
     = false.
Proof.
  split.
  - apply (missing_key_stops_before_network (Some "") Samples.flaky
             (mkInput "data:audio/wav;base64,UklGRg==" None None)
             (mkDataUri "audio/wav" "UklGRg==") eq_refl).
    reflexivity.
  - apply (missing_key_stops_before_network (Some "configured-key") Samples.flaky
             (mkInput "data:audio/wav;base64,UklGRg==" None None)
             (mkDataUri "audio/wav" "UklGRg==") eq_refl).
    vm_compute. repeat constructor.
Defined.


(* ------------------------------------------------------------------ *)
(** ** How a run ends *)

Section Endings.
Import Runs.

Lemma iteration_throw_inv attempt o e :
  iteration attempt o = IterThrow e ->
  exists cause,
    tryBlock attempt o = TryThrow cause
    /\ ((e = nonRetriableError cause /\ signed cause = true)
        \/ (e = exhaustedError cause /\ attempt = MAX_ATTEMPTS
            /\ signed cause = false)).
Proof.
  unfold iteration, signed.
  destruct (tryBlock attempt o) as [t|c|c]; try discriminate.
  unfold catchBlock.
  destruct (authSignature (toLowerCase (message c))) eqn:Es.
  - intros H; inversion H; subst. exists c. auto.
  - destruct (attempt =? MAX_ATTEMPTS) eqn:Ea; [|discriminate].
    intros H; inversion H; subst. apply N.eqb_eq in Ea.
    exists c. auto.
Qed.

(** Three iterations at most, and the third one settles the run. *)
Lemma run_cases env server input key body :
  buildRequest env input = Returned (key, body) ->
  let run := transcribeLiveSpeechFlow env server input in
  (exists k, 1 <= k <= 3
             /\ networkCalls (fst run) = N.to_nat k
             /\ ((exists t, snd run = Returned t
                            /\ iteration k (server k) = IterReturn t)
                 \/ (exists e, snd run = Thrown e
                               /\ iteration k (server k) = IterThrow e))
             /\ forall j, 1 <= j < k -> exists c, iteration j (server j) = IterContinue c).
Proof.
  intros Hreq run. subst run.
  rewrite (flow_of_request _ server _ _ _ Hreq).
  cbn [attemptLoop].
  change (1 + 1) with 2. change (2 + 1) with 3.
  assert (Hlow : forall j, 1 <= j < 1 ->
                           exists c, iteration j (server j) = IterContinue c)
    by (intros j Hj; lia).
  destruct (iteration 1 (server 1)) as [t1|c1|e1] eqn:E1.
  - exists 1. split; [lia|]. split; [reflexivity|]. split; [|exact Hlow].
    left. eexists. split; [reflexivity | eassumption].
  - assert (Hone : forall j, 1 <= j < 2 ->
                             exists c, iteration j (server j) = IterContinue c).
    { intros j Hj. assert (j = 1) by lia. subst j. eauto. }
    destruct (iteration 2 (server 2)) as [t2|c2|e2] eqn:E2.
    + exists 2. split; [lia|]. split; [reflexivity|]. split; [|exact Hone].
      left. eexists. split; [reflexivity | eassumption].
    + assert (Htwo : forall j, 1 <= j < 3 ->
                               exists c, iteration j (server j) = IterContinue c).
      { intros j Hj. assert (j = 1 \/ j = 2) as [->| ->] by lia; eauto. }
      destruct (iteration 3 (server 3)) as [t3|c3|e3] eqn:E3.
      * exists 3. split; [lia|]. split; [reflexivity|]. split; [|exact Htwo].
        left. eexists. split; [reflexivity | eassumption].
      * now apply (iteration_last_settles (server 3) c3) in E3.
      * exists 3. split; [lia|]. split; [reflexivity|]. split; [|exact Htwo].
        right. eexists. split; [reflexivity | eassumption].
    + exists 2. split; [lia|]. split; [reflexivity|]. split; [|exact Hone].
      right. eexists. split; [reflexivity | eassumption].
  - exists 1. split; [lia|]. split; [reflexivity|]. split; [|exact Hlow].
    right. eexists. split; [reflexivity | eassumption].
Qed.

End Endings.

(** X4.  A run that fails after it has reached the network throws one of
    two errors: the non-retriable error around an error whose text carries
    an authorization signature, or the error of the exhausted loop around
    an error without one, and then after exactly three network calls.  The
    error of the line after the loop, marked as not to be reached, is not
    thrown. *)
Theorem failures_after_a_call_are_classified :
  forall env server input events e,
    transcribeLiveSpeechFlow env server input = (events, Thrown e) ->
    events <> [] ->
    ((exists cause, e = nonRetriableError cause /\ Runs.signed cause = true)
     \/ (exists cause, e = exhaustedError cause /\ Runs.signed cause = false
                       /\ networkCalls events = 3%nat))
    /\ forall lastError, e <> unreachableError lastError.
Proof.
  intros env server input events e H Hev.
  assert (Hclass :
            (exists cause, e = nonRetriableError cause
                           /\ Runs.signed cause = true)
            \/ (exists cause, e = exhaustedError cause
                              /\ Runs.signed cause = false
                              /\ networkCalls events = 3%nat)).
  { destruct (buildRequest env input) as [[key body]|e'] eqn:Hreq.
    - destruct (run_cases env server input key body Hreq)
        as (k & Hk & Hcalls & Hend & _).
      rewrite H in Hcalls, Hend. cbn [fst snd] in Hcalls, Hend.
      destruct Hend as [(t & Ht & _)|(e' & He & Hit)]; [discriminate|].
      inversion He; subst e'.
      apply iteration_throw_inv in Hit
        as (cause & _ & [(-> & Hs)|(-> & Hmax & Hs)]).
      + left. eauto.
      + right. exists cause. repeat split; auto.
        rewrite Hcalls, Hmax. reflexivity.
    - rewrite (run_without_request _ server _ _ Hreq) in H.
      inversion H; subst. now destruct Hev. }
  split; [exact Hclass|].
  intros lastError Heq.
  destruct Hclass as [(c & -> & _)|(c & -> & _)];
    unfold unreachableError, nonRetriableError, exhaustedError in Heq;
    cbn in Heq; discriminate.
Qed.

Lemma failures_after_a_call_are_classified_witness :
  ((exists cause,
       exhaustedError (noResultsError (Some (Samples.resultsJson [])))
       = nonRetriableError cause /\ Runs.signed cause = true)
   \/ (exists cause,
          exhaustedError (noResultsError (Some (Samples.resultsJson [])))
          = exhaustedError cause /\ Runs.signed cause = false
          /\ networkCalls [Samples.post; Wait 1000; Samples.post;
                           Wait 2000; Samples.post] = 3%nat))
  /\ forall lastError,
      exhaustedError (noResultsError (Some (Samples.resultsJson [])))
      <> unreachableError lastError.
Proof.
  apply (failures_after_a_call_are_classified None
           (Samples.always Samples.emptyResultsResponse) Samples.request).
  - reflexivity.
  - discriminate.
Defined.


(* ------------------------------------------------------------------ *)
(** ** Statuses, rejections and malformed results *)

Section Failures.
Import Runs.

Variable env : option string.
Variable server : N -> FetchOutcome.
Variable input : TranscribeLiveSpeechInput.
Variables (key : string) (body : RequestBody).
Hypothesis Hreq : buildRequest env input = Returned (key, body).

Lemma run_throws_at_once e :
  iteration 1 (server 1) = IterThrow e ->
  transcribeLiveSpeechFlow env server input = ([Post key body 60000], Thrown e).
Proof.
  intros H. rewrite (flow_of_request _ server _ _ _ Hreq).
  now rewrite (loop_throw server key body 2 1 None e H).
Qed.

Lemma run_throws_at_third e1 e2 e :
  iteration 1 (server 1) = IterContinue e1 ->
  iteration 2 (server 2) = IterContinue e2 ->
  iteration 3 (server 3) = IterThrow e ->
  transcribeLiveSpeechFlow env server input
  = ([Post key body 60000; Wait 1000; Post key body 60000;
      Wait 2000; Post key body 60000], Thrown e).
Proof.
  intros H1 H2 H3. rewrite (flow_of_request _ server _ _ _ Hreq).
  rewrite (loop_continue server key body 2 1 None e1 H1).
  change (1 + 1) with 2.
  rewrite (loop_continue server key body 1 2 (Some e1) e2 H2).
  change (2 + 1) with 3.
  now rewrite (loop_throw server key body 0 3 (Some e2) e H3).
Qed.

End Failures.

Section StatusFacts.
Import Runs.

Lemma authSignature_403 (m : string) :
  authSignature (toLowerCase (message (apiError 403 m))) = true.
Proof.
  change (message (apiError 403 m)) with ("Speech API error (status 403): " ++ m).
  now apply authSignature_prefix.
Qed.

Lemma authSignature_suffix (a b : string) :
  authSignature (toLowerCase b) = true ->
  authSignature (toLowerCase (a ++ b)) = true.
Proof.
  unfold authSignature; rewrite toLowerCase_app; intros H.
  apply orb_true_iff in H as [H|H]; [apply orb_true_iff in H as [H|H]|];
    rewrite (includes_app_r _ _ _ H); rewrite ?orb_true_r; reflexivity.
Qed.

Lemma iteration_auth_status (attempt : N) (r : Response) (json : option json)
      (m : string) :
  status r = 401 \/ status r = 403 \/ status r = 402 ->
  parseBody r = Some json ->
  template (serverMessageOf json) = Some m ->
  iteration attempt (Responds r) = catchBlock attempt (apiError (status r) m).
Proof.
  intros Hs Hp Ht. unfold iteration, tryBlock.
  rewrite Hp, ok_false_4xx by (destruct Hs as [->|[->| ->]]; lia).
  cbn [negb]. rewrite Ht.
  destruct Hs as [->|[->| ->]]; reflexivity.
Qed.

Lemma catchBlock_signed attempt e :
  signed e = true -> catchBlock attempt e = IterThrow (nonRetriableError e).
Proof. unfold signed, catchBlock. now intros ->. Qed.

Lemma catchBlock_unsigned attempt e :
  signed e = false ->
  catchBlock attempt e
  = if attempt =? MAX_ATTEMPTS then IterThrow (exhaustedError e)
    else IterContinue e.
Proof. unfold signed, catchBlock. now intros ->. Qed.

Lemma iteration_serviceError attempt o e :
  serviceError o = Some e ->
  iteration attempt o
  = if attempt =? MAX_ATTEMPTS then catchBlock attempt e else IterContinue e.
Proof.
  unfold serviceError. destruct o as [reason|r]; [discriminate|].
  destruct (ok r || (status r =? 401) || (status r =? 403) || (status r =? 402))
    eqn:Eg; [discriminate|].
  apply orb_false_iff in Eg as [Eg E402].
  apply orb_false_iff in Eg as [Eg E403].
  apply orb_false_iff in Eg as [Eok E401].
  destruct (parseBody r) as [json|] eqn:Ep; [|discriminate].
  destruct (template (serverMessageOf json)) as [m|] eqn:Et; [|discriminate].
  intros H; inversion H; subst e; clear H.
  unfold iteration, tryBlock, retryOrThrow.
  rewrite Ep, Eok. cbn [negb]. rewrite Et, E401, E403, E402. cbn [orb].
  now destruct (attempt =? MAX_ATTEMPTS).
Qed.

Lemma collectTranscripts_null (results : list json) :
  In JNull results ->
  forall acc, collectTranscripts results acc = Thrown typeErrorNullAlternatives.
Proof.
  induction results as [|r rest IH]; intros Hin acc; [destruct Hin|].
  destruct Hin as [->|Hin]; [reflexivity|].
  destruct r; cbn [collectTranscripts]; try reflexivity;
    match goal with
    | |- context [firstTranscript ?x] => destruct (firstTranscript x)
    end; now apply IH.
Qed.

Lemma collectTranscripts_total (results : list json) :
  ~ In JNull results ->
  forall acc,
    collectTranscripts results acc = Returned (acc ++ segments results)%list.
Proof.
  induction results as [|r rest IH]; intros Hin acc.
  - cbn. now rewrite app_nil_r.
  - assert (Hrest : ~ In JNull rest) by (intros H; apply Hin; now right).
    assert (Hr : r <> JNull) by (intros ->; apply Hin; now left).
    cbn [segments flat_map].
    destruct r; try (now destruct Hr); cbn [collectTranscripts];
      match goal with
      | |- context [firstTranscript ?x] => destruct (firstTranscript x)
      end; rewrite (IH Hrest); now rewrite <- ?app_assoc.
Qed.

End StatusFacts.

(** X5.  HTTP 403 at the first attempt, with a body that is empty or JSON
    and a server message that renders as text, ends the flow at once with
    the non-retriable error, after that one network call. *)
Theorem forbidden_fails_at_once :
  forall env server input key body r json m,
    buildRequest env input = Returned (key, body) ->
    server 1 = Responds r ->
    status r = 403 ->
    parseBody r = Some json ->
    template (serverMessageOf json) = Some m ->
    transcribeLiveSpeechFlow env server input
    = ([Post key body 60000], Thrown (nonRetriableError (apiError 403 m))).
Proof.
  intros env server input key body r json m Hreq Hsrv Hs Hp Ht.
  apply (run_throws_at_once _ _ _ _ _ Hreq).
  rewrite Hsrv, (iteration_auth_status 1 r json m) by auto.
  rewrite Hs. apply catchBlock_signed, authSignature_403.
Qed.

Lemma forbidden_fails_at_once_witness :
  transcribeLiveSpeechFlow None
    (Samples.always (Samples.errorResponse 403 "API has not been enabled"))
    Samples.request
  = ([Samples.post],
     Thrown (nonRetriableError (apiError 403 "API has not been enabled"))).
Proof.
  apply (forbidden_fails_at_once None
           (Samples.always (Samples.errorResponse 403 "API has not been enabled"))
           Samples.request "test-key" Samples.requestBodySent
           (mkResponse 403 (stringify (Samples.errorJson "API has not been enabled"))
                       (Some (Samples.errorJson "API has not been enabled")))
           (Some (Samples.errorJson "API has not been enabled"))
           "API has not been enabled");
    reflexivity.
Defined.

(** X6.  HTTP 402 at the first attempt, with a body that is empty or JSON
    and a server message that renders as text: the flow ends at once with
    the non-retriable error when the error text, [Speech API error (status
    402): <server message>], carries one of the authorization signatures,
    as it does when the server message contains the words [payment
    required] in any letter case; when the error text carries none, the
    wait of 1000 ms and a second network call follow. *)
Theorem payment_required_by_text :
  forall env server input key body r json m,
    buildRequest env input = Returned (key, body) ->
    server 1 = Responds r ->
    status r = 402 ->
    parseBody r = Some json ->
    template (serverMessageOf json) = Some m ->
    (includes (toLowerCase m) "payment required" = true ->
     Runs.signed (apiError 402 m) = true)
    /\ (Runs.signed (apiError 402 m) = true ->
        transcribeLiveSpeechFlow env server input
        = ([Post key body 60000], Thrown (nonRetriableError (apiError 402 m))))
    /\ (Runs.signed (apiError 402 m) = false ->
        exists later done,
          transcribeLiveSpeechFlow env server input
          = (Post key body 60000 :: Wait 1000 :: Post key body 60000 :: later,
             done)).
Proof.
  intros env server input key body r json m Hreq Hsrv Hs Hp Ht.
  assert (Hit : iteration 1 (server 1) = catchBlock 1 (apiError 402 m)).
  { rewrite Hsrv, (iteration_auth_status 1 r json m) by auto. now rewrite Hs. }
  split; [|split].
  - intros Hm. unfold Runs.signed.
    change (message (apiError 402 m)) with ("Speech API error (status 402): " ++ m).
    apply authSignature_suffix. unfold authSignature.
    rewrite Hm. now rewrite !orb_true_r.
  - intros Hsig. apply (run_throws_at_once _ _ _ _ _ Hreq).
    rewrite Hit. now apply catchBlock_signed.
  - intros Hsig. rewrite (flow_of_request _ server _ _ _ Hreq).
    rewrite (loop_continue server key body 2 1 None (apiError 402 m)).
    + destruct (loop_starts server key body 1 (1 + 1) (Some (apiError 402 m)))
        as (later & done & E).
      rewrite E. exists later, done. reflexivity.
    + rewrite Hit. now rewrite catchBlock_unsigned.
Qed.

Lemma payment_required_by_text_witness :
  Runs.signed (apiError 402 "Payment Required") = true
  /\ transcribeLiveSpeechFlow None
       (Samples.always (Samples.errorResponse 402 "Payment Required"))
       Samples.request
     = ([Samples.post],
        Thrown (nonRetriableError (apiError 402 "Payment Required")))
  /\ exists later done,
      transcribeLiveSpeechFlow None
        (Samples.always (Samples.errorResponse 402 "Billing account disabled"))
        Samples.request
      = (Samples.post :: Wait 1000 :: Samples.post :: later, done).
Proof.
  destruct (payment_required_by_text None
              (Samples.always (Samples.errorResponse 402 "Payment Required"))
              Samples.request "test-key" Samples.requestBodySent
              (mkResponse 402 (stringify (Samples.errorJson "Payment Required"))
                          (Some (Samples.errorJson "Payment Required")))
              (Some (Samples.errorJson "Payment Required"))
              "Payment Required" eq_refl eq_refl eq_refl eq_refl eq_refl)
    as (Htext & Hstop & _).
  destruct (payment_required_by_text None
              (Samples.always (Samples.errorResponse 402 "Billing account disabled"))
              Samples.request "test-key" Samples.requestBodySent
              (mkResponse 402
                 (stringify (Samples.errorJson "Billing account disabled"))
                 (Some (Samples.errorJson "Billing account disabled")))
              (Some (Samples.errorJson "Billing account disabled"))
              "Billing account disabled" eq_refl eq_refl eq_refl eq_refl eq_refl)
    as (_ & _ & Hretry).
  split; [exact (Htext eq_refl)|].
  split; [exact (Hstop (Htext eq_refl))|].
  exact (Hretry eq_refl).
Defined.

(** X7.  Service errors (a status outside 2xx other than 401, 402 and 403)
    at all three attempts: the first two are retried whatever their
    message says, so the flow makes three calls with the waits of 1000 ms
    and 2000 ms; only the third error is tested for an authorization
    signature, and the flow throws the non-retriable error around it when
    it has one and otherwise the error of the exhausted loop, which carries
    it as [lastError]. *)
Theorem service_errors_are_retried :
  forall env server input key body e1 e2 e3,
    buildRequest env input = Returned (key, body) ->
    Runs.serviceError (server 1) = Some e1 ->
    Runs.serviceError (server 2) = Some e2 ->
    Runs.serviceError (server 3) = Some e3 ->
    transcribeLiveSpeechFlow env server input
    = ([Post key body 60000; Wait 1000; Post key body 60000;
        Wait 2000; Post key body 60000],
       Thrown (if Runs.signed e3 then nonRetriableError e3
               else exhaustedError e3)).
Proof.
  intros env server input key body e1 e2 e3 Hreq H1 H2 H3.
  apply (run_throws_at_third _ _ _ _ _ Hreq e1 e2).
  - now rewrite (iteration_serviceError 1 _ _ H1).
  - now rewrite (iteration_serviceError 2 _ _ H2).
  - rewrite (iteration_serviceError 3 _ _ H3).
    change (3 =? MAX_ATTEMPTS) with true. cbv iota.
    destruct (Runs.signed e3) eqn:Es.
    + now apply catchBlock_signed.
    + now rewrite catchBlock_unsigned.
Qed.

Lemma service_errors_are_retried_witness :
  transcribeLiveSpeechFlow None
    (Samples.inTurn [Samples.errorResponse 500 "status 401 upstream";
                     Samples.errorResponse 503 "payment required"]
                    (Samples.errorResponse 500 "backend error"))
    Samples.request
  = ([Samples.post; Wait 1000; Samples.post; Wait 2000; Samples.post],
     Thrown (if Runs.signed (apiError 500 "backend error")
             then nonRetriableError (apiError 500 "backend error")
             else exhaustedError (apiError 500 "backend error"))).
Proof.
  apply (service_errors_are_retried None
           (Samples.inTurn [Samples.errorResponse 500 "status 401 upstream";
                            Samples.errorResponse 503 "payment required"]
                           (Samples.errorResponse 500 "backend error"))
           Samples.request "test-key" Samples.requestBodySent
           (apiError 500 "status 401 upstream")
           (apiError 503 "payment required")
           (apiError 500 "backend error"));
    reflexivity.
Defined.

(** X8.  A [fetch] that rejects (network failure, or the abort of the 60 s
    timer) is handled by the [catch] block at every attempt: with an
    authorization signature in its reason the flow stops at once with the
    non-retriable error; three rejections without one give three calls and
    the error of the exhausted loop around the last reason. *)
Theorem rejections_are_retried :
  forall env server input key body,
    buildRequest env input = Returned (key, body) ->
    (forall reason,
        server 1 = Rejects reason ->
        Runs.signed (mkError reason None) = true ->
        transcribeLiveSpeechFlow env server input
        = ([Post key body 60000],
           Thrown (nonRetriableError (mkError reason None))))
    /\ (forall r1 r2 r3,
           server 1 = Rejects r1 -> server 2 = Rejects r2 ->
           server 3 = Rejects r3 ->
           Runs.signed (mkError r1 None) = false ->
           Runs.signed (mkError r2 None) = false ->
           Runs.signed (mkError r3 None) = false ->
           transcribeLiveSpeechFlow env server input
           = ([Post key body 60000; Wait 1000; Post key body 60000;
               Wait 2000; Post key body 60000],
              Thrown (exhaustedError (mkError r3 None)))).
Proof.
  intros env server input key body Hreq. split.
  - intros reason Hs Hsig.
    apply (run_throws_at_once _ _ _ _ _ Hreq).
    rewrite Hs. unfold iteration, tryBlock. now apply catchBlock_signed.
  - intros r1 r2 r3 H1 H2 H3 S1 S2 S3.
    apply (run_throws_at_third _ _ _ _ _ Hreq (mkError r1 None) (mkError r2 None)).
    + rewrite H1. unfold iteration, tryBlock. now rewrite catchBlock_unsigned.
    + rewrite H2. unfold iteration, tryBlock. now rewrite catchBlock_unsigned.
    + rewrite H3. unfold iteration, tryBlock. now rewrite catchBlock_unsigned.
Qed.

Lemma rejections_are_retried_witness :
  transcribeLiveSpeechFlow None
    (Samples.always (Rejects "This operation was aborted")) Samples.request
  = ([Samples.post; Wait 1000; Samples.post; Wait 2000; Samples.post],
     Thrown (exhaustedError (mkError "This operation was aborted" None)))
  /\ transcribeLiveSpeechFlow None
       (Samples.always (Rejects "proxy said: status 403")) Samples.request
     = ([Samples.post],
        Thrown (nonRetriableError (mkError "proxy said: status 403" None))).
Proof.
  split.
  - apply (proj2 (rejections_are_retried None
                    (Samples.always (Rejects "This operation was aborted"))
                    Samples.request "test-key" Samples.requestBodySent eq_refl)
             "This operation was aborted" "This operation was aborted"
             "This operation was aborted");
      reflexivity.
  - apply (proj1 (rejections_are_retried None
                    (Samples.always (Rejects "proxy said: status 403"))
                    Samples.request "test-key" Samples.requestBodySent eq_refl)
             "proxy said: status 403");
      reflexivity.
Defined.

(** X9.  A [results] array that contains [null] makes its attempt fail with
    the type error of reading a property of [null], however many
    transcripts the other results hold: the error is retried at attempts 1
    and 2 and exhausts the loop at attempt 3.  Without a [null] entry the
    collection loop returns the recognized segments in order. *)
Theorem null_result_fails_the_attempt :
  forall attempt r json results,
    ok r = true ->
    parseBody r = Some json ->
    resultsOf json = Some results ->
    (In JNull results ->
     iteration attempt (Responds r)
     = if attempt =? MAX_ATTEMPTS
       then IterThrow (exhaustedError typeErrorNullAlternatives)
       else IterContinue typeErrorNullAlternatives)
    /\ (~ In JNull results ->
        collectTranscripts results [] = Returned (segments results)).
Proof.
  intros attempt r json results Hok Hp Hr. split.
  - intros Hin. unfold iteration, tryBlock.
    rewrite Hp, Hok, Hr. cbn [negb].
    rewrite (collectTranscripts_null results Hin).
    now rewrite catchBlock_unsigned.
  - intros Hin. now rewrite (collectTranscripts_total results Hin).
Qed.

Lemma null_result_fails_the_attempt_witness :
  let body := JObj [("results", JArr [Samples.resultJson "hello"; JNull])] in
  iteration 1 (Responds (mkResponse 200 (stringify body) (Some body)))
  = IterContinue typeErrorNullAlternatives
  /\ collectTranscripts [Samples.resultJson "a"; Samples.resultJson "b"] []
     = Returned (segments [Samples.resultJson "a"; Samples.resultJson "b"]).
Proof.
  intros body. split.
  - apply (proj1 (null_result_fails_the_attempt 1
                    (mkResponse 200 (stringify body) (Some body))
                    (Some body) [Samples.resultJson "hello"; JNull]
                    eq_refl eq_refl eq_refl)).
    right. left. reflexivity.
  - apply (proj2 (null_result_fails_the_attempt 1
                    (mkResponse 200 (stringify (Samples.resultsJson ["a"; "b"]))
                                (Some (Samples.resultsJson ["a"; "b"])))
                    (Some (Samples.resultsJson ["a"; "b"]))
                    [Samples.resultJson "a"; Samples.resultJson "b"]
                    eq_refl eq_refl eq_refl)).
    intros [H|[H|H]]; try discriminate H. exact H.
Defined.


(* ------------------------------------------------------------------ *)
(** ** More on validation and inference *)

Section UriFacts.
Import Runs.

Lemma countChar_app c a b :
  countChar c (a ++ b) = (countChar c a + countChar c b)%nat.
Proof.
  induction a as [|d a IH]; [reflexivity|].
  change (String d a ++ b) with (String d (a ++ b)).
  cbn [countChar]. rewrite IH. now rewrite PeanoNat.Nat.add_assoc.
Qed.

Lemma countChar_outside p c s :
  allChars p s = true -> p c = false -> countChar c s = 0%nat.
Proof.
  intros Hs Hc; induction s as [|d s IH]; [reflexivity|].
  cbn in Hs. apply andb_true_iff in Hs as [Hd Hs].
  cbn [countChar]. rewrite (IH Hs).
  destruct (Ascii.eqb c d) eqn:E; [|reflexivity].
  apply Ascii.eqb_eq in E; subst d. congruence.
Qed.

Lemma accepted_uri_separators uri d :
  validateDataUri uri = Returned d ->
  countChar ":" uri = 1%nat /\ countChar ";" uri = 1%nat
  /\ countChar "," uri = 1%nat.
Proof.
  destruct d as [m p]. unfold validateDataUri.
  destruct (execDataUri uri) as [d'|] eqn:E; [|discriminate].
  intros H; inversion H; subst d'.
  apply execDataUri_sound in E as (-> & _ & Am & _ & Ap).
  rewrite !countChar_app.
  repeat split;
    match goal with
    | |- context [countChar ?c m] =>
        rewrite (countChar_outside isMimeChar c m Am eq_refl),
                (countChar_outside isBase64Char c p Ap eq_refl)
    end; reflexivity.
Qed.

End UriFacts.

(** X11.  A data URI that passes validation has exactly one colon, one
    semicolon and one comma.  So a URI whose media type carries a
    parameter, like [data:audio/webm;codecs=opus;base64,...], is rejected
    with the invalid-URI error, whatever its parts are. *)
Theorem media_type_parameters_are_rejected :
  (forall uri d,
      validateDataUri uri = Returned d ->
      Runs.countChar ":" uri = 1%nat /\ Runs.countChar ";" uri = 1%nat
      /\ Runs.countChar "," uri = 1%nat)
  /\ (forall mediaType parameter payload,
         validateDataUri
           ("data:" ++ mediaType ++ ";" ++ parameter ++ ";base64," ++ payload)
         = Thrown invalidDataUri).
Proof.
  split; [exact accepted_uri_separators|].
  intros mediaType parameter payload.
  destruct (validateDataUri
              ("data:" ++ mediaType ++ ";" ++ parameter ++ ";base64," ++ payload))
    as [d|e] eqn:E.
  - apply accepted_uri_separators in E as (_ & Hsemi & _).
    rewrite !countChar_app in Hsemi. cbn in Hsemi. lia.
  - unfold validateDataUri in E.
    destruct (execDataUri _); [discriminate|]. now inversion E.
Qed.

Lemma media_type_parameters_are_rejected_witness :
  Runs.countChar ":" "data:audio/wav;base64,UklGRg==" = 1%nat
  /\ Runs.countChar ";" "data:audio/wav;base64,UklGRg==" = 1%nat
  /\ Runs.countChar "," "data:audio/wav;base64,UklGRg==" = 1%nat.
Proof.
  apply (proj1 media_type_parameters_are_rejected
           "data:audio/wav;base64,UklGRg==" (mkDataUri "audio/wav" "UklGRg==")).
  reflexivity.
Defined.

(** X12.  The codec hint is either absent or one of the six codec names of
    the table, never an empty string (so the test [if (encoding)] of the
    flow sets the field exactly when the table matched); it is absent
    exactly when none of the six keys occurs in the lower-cased media
    type. *)
Theorem codec_hint_range :
  (forall mediaType codec,
      mimeTypeToEncoding mediaType = Some codec ->
      In codec Runs.codecNames /\ codec <> "")
  /\ (forall mediaType,
         mimeTypeToEncoding mediaType = None
         <-> forall entry, In entry codecTable ->
                           includes (toLowerCase mediaType) (fst entry) = false).
Proof.
  split.
  - intros mediaType codec. unfold mimeTypeToEncoding, Runs.codecNames.
    repeat match goal with
           | |- context [includes ?s ?k] => destruct (includes s k)
           end;
      intros H; inversion H; subst; split; cbn; auto 10; discriminate.
  - intros mediaType. unfold mimeTypeToEncoding, codecTable. split.
    + intros H entry Hin.
      repeat match type of H with
             | context [includes ?s ?k] =>
                 let E := fresh "E" in
                 destruct (includes s k) eqn:E; [discriminate|]
             end.
      cbn in Hin.
      repeat destruct Hin as [<-|Hin]; try assumption. destruct Hin.
    + intros H.
      pose proof (H ("webm", "WEBM_OPUS") ltac:(cbn; auto 10)) as E1.
      pose proof (H ("wav", "WAV") ltac:(cbn; auto 10)) as E2.
      pose proof (H ("mp3", "MP3") ltac:(cbn; auto 10)) as E3.
      pose proof (H ("flac", "FLAC") ltac:(cbn; auto 10)) as E4.
      pose proof (H ("amr", "AMR") ltac:(cbn; auto 10)) as E5.
      pose proof (H ("ogg", "OGG_OPUS") ltac:(cbn; auto 10)) as E6.
      cbn [fst] in *. now rewrite E1, E2, E3, E4, E5, E6.
Qed.

Lemma codec_hint_range_witness :
  (In "OGG_OPUS" Runs.codecNames /\ "OGG_OPUS" <> "")
  /\ (forall entry, In entry codecTable ->
                    includes (toLowerCase "audio/L16") (fst entry) = false).
Proof.
  split.
  - apply (proj1 codec_hint_range "audio/ogg"). reflexivity.
  - apply (proj1 (proj2 codec_hint_range "audio/L16")). reflexivity.
Defined.


(** X13.  A run that returns made exactly as many network calls as the
    number of the attempt whose answer it returns, between one and three;
    every earlier attempt had ended with a failure the loop retries. *)
Theorem success_stops_the_loop :
  forall env server input events t,
    transcribeLiveSpeechFlow env server input = (events, Returned t) ->
    exists k,
      1 <= k <= 3
      /\ networkCalls events = N.to_nat k
      /\ iteration k (server k) = IterReturn t
      /\ forall j, 1 <= j < k ->
                   exists c, iteration j (server j) = IterContinue c.
Proof.
  intros env server input events t H.
  destruct (buildRequest env input) as [[key body]|e] eqn:Hreq.
  - destruct (run_cases env server input key body Hreq)
      as (k & Hk & Hcalls & Hend & Hbefore).
    rewrite H in Hcalls, Hend. cbn [fst snd] in Hcalls, Hend.
    exists k. repeat split; auto; try lia.
    destruct Hend as [(t' & Ht & Hit)|(e & He & _)]; [|discriminate].
    inversion Ht; subst t'. exact Hit.
  - rewrite (run_without_request _ server _ _ Hreq) in H. discriminate.
Qed.

Lemma success_stops_the_loop_witness :
  exists k,
    1 <= k <= 3
    /\ networkCalls [Samples.post; Wait 1000; Samples.post;
                     Wait 2000; Samples.post] = N.to_nat k
    /\ iteration k (Samples.flaky k) = IterReturn "hello world"
    /\ forall j, 1 <= j < k ->
                 exists c, iteration j (Samples.flaky j) = IterContinue c.
Proof.
  apply (success_stops_the_loop None Samples.flaky Samples.request).
  reflexivity.
Defined.

(* ================================================================== *)
(** * Further properties of the container step and the synthesis flow *)

Section ContainerFacts.
Import Wav.

Lemma digit_is_base64 (b5 b4 b3 b2 b1 b0 : bool) :
  isBase64Char (digit (sextet b5 b4 b3 b2 b1 b0)) = true.
Proof. destruct b5, b4, b3, b2, b1, b0; vm_compute; reflexivity. Qed.

Lemma base64Encode_alphabet (bs : Buffer) :
  allChars isBase64Char (base64Encode bs) = true.
Proof.
  induction bs as [| a | a b | a b c rest IH] using list_ind3.
  - reflexivity.
  - destruct a as [a0 a1 a2 a3 a4 a5 a6 a7].
    cbn [base64Encode allChars]. now rewrite !digit_is_base64.
  - destruct a as [a0 a1 a2 a3 a4 a5 a6 a7], b as [b0 b1 b2 b3 b4 b5 b6 b7].
    cbn [base64Encode allChars]. now rewrite !digit_is_base64.
  - destruct a as [a0 a1 a2 a3 a4 a5 a6 a7], b as [b0 b1 b2 b3 b4 b5 b6 b7],
      c as [c0 c1 c2 c3 c4 c5 c6 c7].
    cbn [base64Encode allChars]. now rewrite !digit_is_base64, IH.
Qed.

Lemma base64Encode_nonempty (b : byte) (bs : Buffer) :
  base64Encode (b :: bs) <> "".
Proof.
  destruct b as [a0 a1 a2 a3 a4 a5 a6 a7].
  destruct bs as [|[b0 b1 b2 b3 b4 b5 b6 b7] [|[c0 c1 c2 c3 c4 c5 c6 c7] rest]];
    cbn [base64Encode]; discriminate.
Qed.

Lemma toWav_nonempty pcm channels rate sampleWidth :
  toWav pcm channels rate sampleWidth <> "".
Proof.
  unfold toWav, writerChunks, header. cbn [List.concat].
  rewrite <- !app_assoc.
  change (tag "RIFF") with ["R"%char; "I"%char; "F"%char; "F"%char].
  cbn [app]. apply base64Encode_nonempty.
Qed.

End ContainerFacts.



(** X15.  The data URI the synthesis flow builds around the output of
    [toWav] passes the validation of the transcription flow, with media
    type [audio/wav] and the rendered container as payload, and its media
    type is inferred as WAV: with a key, the transcription flow builds its
    request from it, whatever the PCM bytes are. *)
Theorem synthesized_audio_is_valid_input :
  forall (pcm : Wav.Buffer) env lang key,
    key <> "" ->
    validateDataUri (Wav.audioDataUriOf pcm)
    = Returned (mkDataUri "audio/wav" (Wav.toWav pcm 1 24000 2))
    /\ buildRequest env (mkInput (Wav.audioDataUriOf pcm) (Some lang) (Some key))
       = Returned (key, mkBody (mkConfig lang true "default" (Some "WAV"))
                               (Wav.toWav pcm 1 24000 2)).
Proof.
  intros pcm env lang key Hkey.
  assert (Hv : validateDataUri (Wav.audioDataUriOf pcm)
               = Returned (mkDataUri "audio/wav" (Wav.toWav pcm 1 24000 2))).
  { unfold validateDataUri, Wav.audioDataUriOf, Wav.toWavDefault.
    change ("data:audio/wav;base64," ++ Wav.toWav pcm 1 24000 2)
      with ("data:" ++ "audio/wav" ++ ";base64," ++ Wav.toWav pcm 1 24000 2).
    rewrite execDataUri_complete; auto.
    - discriminate.
    - apply toWav_nonempty.
    - apply base64Encode_alphabet. }
  split; [exact Hv|].
  unfold buildRequest. cbn [audioDataUri apiKey languageCode nullish].
  rewrite Hv. apply isEmpty_false in Hkey. rewrite Hkey. reflexivity.
Qed.

Lemma synthesized_audio_is_valid_input_witness :
  validateDataUri (Wav.audioDataUriOf Samples.pcmSample)
  = Returned (mkDataUri "audio/wav" (Wav.toWav Samples.pcmSample 1 24000 2))
  /\ buildRequest None
       (mkInput (Wav.audioDataUriOf Samples.pcmSample) (Some "en-US")
                (Some "test-key"))
     = Returned ("test-key",
                 mkBody (mkConfig "en-US" true "default" (Some "WAV"))
                        (Wav.toWav Samples.pcmSample 1 24000 2)).
Proof.
  apply (synthesized_audio_is_valid_input Samples.pcmSample None "en-US" "test-key").
  discriminate.
Defined.


Section MediaUrl.
Import Runs Tts.

Lemma indexOfFrom_found c a b i :
  countChar c a = 0%nat ->
  indexOfFrom c (a ++ String c b) i = (i + Z.of_nat (String.length a))%Z.
Proof.
  revert i; induction a as [|d a IH]; intros i H.
  - cbn. rewrite Ascii.eqb_refl. lia.
  - cbn [countChar] in H.
    change (String d a ++ String c b) with (String d (a ++ String c b)).
    cbn [indexOfFrom String.length].
    destruct (Ascii.eqb c d); [discriminate|].
    rewrite IH by exact H. lia.
Qed.

Lemma indexOfFrom_missing c s i :
  countChar c s = 0%nat -> indexOfFrom c s i = (-1)%Z.
Proof.
  revert i; induction s as [|d s IH]; intros i H; [reflexivity|].
  cbn [countChar] in H. cbn [indexOfFrom].
  destruct (Ascii.eqb c d); [discriminate|]. now apply IH.
Qed.

Lemma drop_length_app a b : drop (String.length a) (a ++ b) = b.
Proof. induction a as [|d a IH]; [now destruct b|exact IH]. Qed.

(** [url.substring(url.indexOf(',') + 1)]: what follows the first comma,
    or the whole string when there is none. *)
Lemma after_first_comma a b :
  countChar "," a = 0%nat ->
  substring (a ++ "," ++ b) (indexOf (a ++ "," ++ b) "," + 1) = b.
Proof.
  intros H. unfold indexOf, substring.
  change ("," ++ b) with (String "," b).
  rewrite (indexOfFrom_found _ _ _ _ H).
  replace (Z.to_nat (Z.max 0 (0 + Z.of_nat (String.length a) + 1)))
    with (String.length (a ++ ",")).
  - replace (a ++ String "," b) with ((a ++ ",") ++ b).
    + apply drop_length_app.
    + clear H. induction a as [|d a IH]; [reflexivity|].
      cbn [append]. now rewrite IH.
  - clear H. induction a as [|d a IH]; [reflexivity|].
    cbn [append String.length]. rewrite IH. lia.
Qed.

Lemma without_comma s :
  countChar "," s = 0%nat -> substring s (indexOf s "," + 1) = s.
Proof.
  intros H. unfold indexOf, substring.
  now rewrite (indexOfFrom_missing _ _ _ H).
Qed.

Lemma toWav_uri_is_valid (pcm : Wav.Buffer) :
  validateDataUri ("data:audio/wav;base64," ++ Wav.toWav pcm 1 24000 2)
  = Returned (mkDataUri "audio/wav" (Wav.toWav pcm 1 24000 2)).
Proof.
  unfold validateDataUri.
  change ("data:audio/wav;base64," ++ Wav.toWav pcm 1 24000 2)
    with ("data:" ++ "audio/wav" ++ ";base64," ++ Wav.toWav pcm 1 24000 2).
  rewrite execDataUri_complete; auto.
  - discriminate.
  - apply toWav_nonempty.
  - apply base64Encode_alphabet.
Qed.

Lemma toWav_decodes (pcm : Wav.Buffer) :
  pcm <> [] ->
  N.of_nat (length pcm) < 2 ^ 32 ->
  Wav.decodeContainer (Wav.toWav pcm 1 24000 2)
  = Some (Wav.mkFormat 1 24000 16, pcm).
Proof.
  intros Hne Hl.
  apply (toWav_round_trip pcm 1 24000 2); auto; reflexivity.
Qed.

End MediaUrl.

(** X16.  The synthesis flow sends exactly one request to the model, with
    the text as prompt and with the voice of the input, or [Algenib] when
    the input has none.  It fails only when that call rejects or returns no
    media; whenever media comes back, whatever its URL holds, the flow
    returns a data URI that the validation of the transcription flow
    accepts with media type [audio/wav]. *)
Theorem synthesis_returns_a_valid_wav_uri :
  forall generate bufferFromBase64 input,
    let request := Tts.generateRequestOf input in
    let run := Tts.generateSpokenAudioFlow generate bufferFromBase64 input in
    fst run = [request]
    /\ Tts.prompt request = Tts.ttsText input
    /\ Tts.voiceName request
       = match Tts.voice input with Some v => v | None => "Algenib" end
    /\ match generate request with
       | Tts.GenRejects reason => snd run = Thrown (mkError reason None)
       | Tts.GenResolves None => snd run = Thrown Tts.noMedia
       | Tts.GenResolves (Some url) =>
           exists payload,
             snd run = Returned ("data:audio/wav;base64," ++ payload)
             /\ validateDataUri ("data:audio/wav;base64," ++ payload)
                = Returned (mkDataUri "audio/wav" payload)
       end.
Proof.
  intros generate bufferFromBase64 input request run.
  subst run. unfold Tts.generateSpokenAudioFlow. fold request.
  destruct (generate request) as [reason|[url|]]; repeat split.
  eexists. split; [reflexivity|].
  apply toWav_uri_is_valid.
Qed.

(** X17.  When the media URL reads [<anything without a comma>,<base64 of
    the PCM bytes>], there are PCM bytes, and [Buffer.from] decodes that
    base64 to the bytes, the container the flow returns decodes to exactly
    those PCM bytes, one channel, 24000 Hz and 16 bits.  A media URL
    without any comma is handed to the decoder whole. *)
Theorem synthesis_preserves_the_audio :
  forall generate bufferFromBase64 input,
    (forall prefix (pcm : Wav.Buffer),
        pcm <> [] ->
        Runs.countChar "," prefix = 0%nat ->
        generate (Tts.generateRequestOf input)
        = Tts.GenResolves (Some (prefix ++ "," ++ Wav.base64Encode pcm)) ->
        bufferFromBase64 (Wav.base64Encode pcm) = pcm ->
        N.of_nat (length pcm) < 2 ^ 32 ->
        exists payload,
          snd (Tts.generateSpokenAudioFlow generate bufferFromBase64 input)
          = Returned ("data:audio/wav;base64," ++ payload)
          /\ Wav.decodeContainer payload = Some (Wav.mkFormat 1 24000 16, pcm))
    /\ (forall url,
           Runs.countChar "," url = 0%nat ->
           generate (Tts.generateRequestOf input) = Tts.GenResolves (Some url) ->
           snd (Tts.generateSpokenAudioFlow generate bufferFromBase64 input)
           = Returned (Wav.audioDataUriOf (bufferFromBase64 url))).
Proof.
  intros generate bufferFromBase64 input. split.
  - intros prefix pcm Hne Hp Hg Hd Hl.
    unfold Tts.generateSpokenAudioFlow. rewrite Hg.
    rewrite (after_first_comma _ _ Hp), Hd.
    eexists. split; [reflexivity|].
    now apply toWav_decodes.
  - intros url Hc Hg.
    unfold Tts.generateSpokenAudioFlow. rewrite Hg.
    now rewrite (without_comma _ Hc).
Qed.

Lemma synthesis_preserves_the_audio_witness :
  (exists payload,
      snd (Tts.generateSpokenAudioFlow MoreSamples.ttsService
             Tts.strictBufferFromBase64 MoreSamples.ttsInput)
      = Returned ("data:audio/wav;base64," ++ payload)
      /\ Wav.decodeContainer payload
         = Some (Wav.mkFormat 1 24000 16, Samples.pcmSample))
  /\ snd (Tts.generateSpokenAudioFlow
            (fun _ => Tts.GenResolves (Some "AAEC"))
            Tts.strictBufferFromBase64 MoreSamples.ttsInput)
     = Returned (Wav.audioDataUriOf (Tts.strictBufferFromBase64 "AAEC")).
Proof.
  split.
  - apply (proj1 (synthesis_preserves_the_audio MoreSamples.ttsService
                    Tts.strictBufferFromBase64 MoreSamples.ttsInput)
             "data:audio/L16;codec=pcm;rate=24000;base64" Samples.pcmSample);
      try reflexivity.
    discriminate.
  - apply (proj2 (synthesis_preserves_the_audio
                    (fun _ => Tts.GenResolves (Some "AAEC"))
                    Tts.strictBufferFromBase64 MoreSamples.ttsInput)
             "AAEC");
      reflexivity.
Defined.

(* ================================================================== *)
(** * Properties of the components *)

Section Recorder.
Import Ui.

Lemma recording_concat deliveries :
  forall chunks,
    List.concat (fold_left ondataavailable deliveries chunks)
    = (List.concat chunks ++ List.concat deliveries)%list.
Proof.
  induction deliveries as [|d ds IH]; intros chunks.
  - cbn. now rewrite app_nil_r.
  - cbn [fold_left List.concat]. rewrite IH. unfold ondataavailable.
    destruct d as [|b d].
    + reflexivity.
    + cbn [length Nat.ltb Nat.leb].
      rewrite concat_app. cbn [List.concat].
      now rewrite app_nil_r, <- app_assoc.
Qed.

Lemma recording_chunks deliveries :
  forall chunks,
    Forall (fun c => c <> []) chunks ->
    Forall (fun c => c <> []) (fold_left ondataavailable deliveries chunks).
Proof.
  induction deliveries as [|d ds IH]; intros chunks H; [exact H|].
  cbn [fold_left]. apply IH. unfold ondataavailable.
  destruct d as [|b d]; [exact H|].
  cbn [length Nat.ltb Nat.leb].
  apply Forall_app. split; [exact H|].
  constructor; [discriminate | constructor].
Qed.

Lemma networkEffects_map events :
  networkEffects (map Network events) = events.
Proof.
  unfold networkEffects.
  induction events as [|e events IH]; [reflexivity|].
  cbn. now rewrite IH.
Qed.

Lemma networkEffects_onstop env server chunks lang :
  networkEffects (onstop env server chunks lang)
  = fst (transcribeLiveSpeechFlow env server
           (mkInput (readAsDataURL "audio/webm" (List.concat chunks))
                    (Some lang) None)).
Proof.
  unfold onstop, transcribeLiveSpeech.
  destruct (transcribeLiveSpeechFlow env server _) as [events completion].
  unfold networkEffects. rewrite !flat_map_app.
  fold (networkEffects (map Network events)). rewrite networkEffects_map.
  cbn [fst]. destruct completion; cbn; now rewrite app_nil_r.
Qed.

Lemma recording_uri_is_valid (audio : Blob) :
  audio <> [] ->
  validateDataUri (readAsDataURL "audio/webm" audio)
  = Returned (mkDataUri "audio/webm" (Wav.base64Encode audio)).
Proof.
  intros H. unfold validateDataUri, readAsDataURL.
  rewrite execDataUri_complete; auto.
  - discriminate.
  - destruct audio as [|b audio]; [now destruct H|].
    apply base64Encode_nonempty.
  - apply base64Encode_alphabet.
Qed.

End Recorder.

(** X18.  The chunk list of a recording holds no empty chunk, and dropping
    the empty deliveries loses nothing: the blob built from the chunks has
    the bytes of all deliveries, in the order they came. *)
Theorem recording_keeps_all_audio :
  forall deliveries : list Ui.Blob,
    List.concat (Ui.recorded deliveries) = List.concat deliveries
    /\ Forall (fun chunk => chunk <> []) (Ui.recorded deliveries).
Proof.
  intros deliveries. unfold Ui.recorded. split.
  - now rewrite recording_concat.
  - apply recording_chunks. constructor.
Qed.

(** X19.  Stopping a recording that delivered no audio never reaches the
    network: the data URL of the empty blob has no payload, the validation
    of the flow rejects it, and the handler logs the error, shows the
    failure toast, resets the processing flag and stops the tracks. *)
Theorem empty_recording_is_rejected_locally :
  forall env server lang (chunks : list Ui.Blob),
    List.concat chunks = [] ->
    Ui.onstop env server chunks lang
    = [Ui.SetIsProcessing true;
       Ui.ConsoleError "Transcription failed:" invalidDataUri;
       Ui.Toast true "Transcription Failed";
       Ui.SetIsProcessing false; Ui.StopTracks]
    /\ Ui.networkEffects (Ui.onstop env server chunks lang) = [].
Proof.
  intros env server lang chunks H.
  assert (E : Ui.onstop env server chunks lang
              = [Ui.SetIsProcessing true;
                 Ui.ConsoleError "Transcription failed:" invalidDataUri;
                 Ui.Toast true "Transcription Failed";
                 Ui.SetIsProcessing false; Ui.StopTracks]).
  { unfold Ui.onstop, transcribeLiveSpeech. rewrite H.
    now rewrite (flow_of_failed_request env server
                   (mkInput (Ui.readAsDataURL "audio/webm" []) (Some lang) None)
                   invalidDataUri eq_refl). }
  now rewrite E.
Qed.

Lemma empty_recording_is_rejected_locally_witness :
  Ui.onstop (Some "configured-key") Samples.flaky (Ui.recorded [[]; []]) "en-US"
  = [Ui.SetIsProcessing true;
     Ui.ConsoleError "Transcription failed:" invalidDataUri;
     Ui.Toast true "Transcription Failed";
     Ui.SetIsProcessing false; Ui.StopTracks]
  /\ Ui.networkEffects
       (Ui.onstop (Some "configured-key") Samples.flaky (Ui.recorded [[]; []]) "en-US")
     = [].
Proof.
  apply (empty_recording_is_rejected_locally (Some "configured-key")
           Samples.flaky "en-US" (Ui.recorded [[]; []])).
  reflexivity.
Defined.

(** X20.  Stopping a recording that holds audio calls the flow with the
    data URL of the blob, the selected language and no key of its own.
    With a configured key, the request the flow posts has that key, the
    selected language, the codec WEBM_OPUS and the base64 of the recorded
    bytes as content, and the network calls of the handler are those of
    the flow: one to three posts of that request.  Without a configured
    key the handler makes no network call. *)
Theorem recording_is_sent_as_webm :
  forall server lang (chunks : list Ui.Blob),
    List.concat chunks <> [] ->
    (forall key,
        key <> "" ->
        let request :=
          Post key
               (mkBody (mkConfig lang true "default" (Some "WEBM_OPUS"))
                       (Wav.base64Encode (List.concat chunks)))
               60000 in
        let calls := Ui.networkEffects (Ui.onstop (Some key) server chunks lang) in
        calls = [request]
        \/ calls = [request; Wait 1000; request]
        \/ calls = [request; Wait 1000; request; Wait 2000; request])
    /\ Ui.networkEffects (Ui.onstop None server chunks lang) = [].
Proof.
  intros server lang chunks H.
  pose proof (recording_uri_is_valid _ H) as Hv.
  split.
  - intros key Hkey request calls. subst calls request.
    rewrite networkEffects_onstop.
    apply run_shape.
    unfold buildRequest. cbn [audioDataUri apiKey languageCode nullish].
    rewrite Hv. apply isEmpty_false in Hkey. now rewrite Hkey.
  - rewrite networkEffects_onstop.
    rewrite (flow_of_failed_request None server _ missingApiKey); [reflexivity|].
    unfold buildRequest. cbn [audioDataUri apiKey nullish]. now rewrite Hv.
Qed.

Lemma recording_is_sent_as_webm_witness :
  let request :=
    Post "configured-key"
         (mkBody (mkConfig "fr-FR" true "default" (Some "WEBM_OPUS"))
                 (Wav.base64Encode
                    (List.concat (Ui.recorded MoreSamples.deliveries))))
         60000 in
  let calls :=
    Ui.networkEffects
      (Ui.onstop (Some "configured-key") Samples.flaky
                 (Ui.recorded MoreSamples.deliveries) "fr-FR") in
  calls = [request]
  \/ calls = [request; Wait 1000; request]
  \/ calls = [request; Wait 1000; request; Wait 2000; request].
Proof.
  apply (proj1 (recording_is_sent_as_webm Samples.flaky "fr-FR"
                  (Ui.recorded MoreSamples.deliveries)
                  ltac:(discriminate))
           "configured-key").
  discriminate.
Defined.

Section Handlers.
Import Ui.

Lemma flow_returns_nonempty env server input events t :
  transcribeLiveSpeechFlow env server input = (events, Returned t) -> t <> "".
Proof.
  unfold transcribeLiveSpeechFlow.
  destruct (buildRequest env input) as [[key body]|e]; [|discriminate].
  intros H. apply loop_return_inv in H as (k & _ & Hit).
  apply iteration_return_inv in Hit as (r & json & results & _ & _ & _ & _ & _ & Hne).
  now apply isEmpty_false.
Qed.

Lemma labelIn_found table :
  NoDup (map value table) ->
  forall lang, In lang table -> labelIn table (value lang) = label lang.
Proof.
  unfold labelIn.
  induction table as [|x table IH]; intros Hnd lang Hin; [destruct Hin|].
  inversion Hnd as [|v vs Hx Hrest]; subst.
  cbn [find]. destruct Hin as [->|Hin].
  - now rewrite String.eqb_refl.
  - destruct (String.eqb (value x) (value lang)) eqn:E.
    + apply String.eqb_eq in E. exfalso. apply Hx. rewrite E.
      now apply in_map.
    + now apply IH.
Qed.

Lemma labelIn_missing table v :
  ~ In v (map value table) -> labelIn table v = "".
Proof.
  unfold labelIn.
  induction table as [|x table IH]; intros H; [reflexivity|].
  cbn [find]. destruct (String.eqb (value x) v) eqn:E.
  - apply String.eqb_eq in E. exfalso. apply H. left. exact E.
  - apply IH. intros Hin. apply H. now right.
Qed.

End Handlers.

(** X21.  The stop handler first sets the processing flag, then relays the
    network events of the flow, and then does one of two things: it shows
    the transcription, which is then not empty, or it logs the error and
    shows the failure toast.  Either way it ends by resetting the
    processing flag and stopping the microphone tracks. *)
Theorem stop_handler_outcome :
  forall env server (chunks : list Ui.Blob) lang,
    let events :=
      fst (transcribeLiveSpeechFlow env server
             (mkInput (Ui.readAsDataURL "audio/webm" (List.concat chunks))
                      (Some lang) None)) in
      (exists t,
          t <> ""
          /\ Ui.onstop env server chunks lang
             = (Ui.SetIsProcessing true :: map Ui.Network events
                ++ [Ui.SetTranscription t; Ui.SetIsProcessing false;
                    Ui.StopTracks])%list)
      \/ (exists e,
             Ui.onstop env server chunks lang
             = (Ui.SetIsProcessing true :: map Ui.Network events
                ++ [Ui.ConsoleError "Transcription failed:" e;
                    Ui.Toast true "Transcription Failed";
                    Ui.SetIsProcessing false; Ui.StopTracks])%list).
Proof.
  intros env server chunks lang events. subst events.
  unfold Ui.onstop, transcribeLiveSpeech.
  destruct (transcribeLiveSpeechFlow env server _) as [events [t|e]] eqn:E;
    cbn [fst].
  - left. exists t. split; [|reflexivity].
    now apply flow_returns_nonempty in E.
  - right. exists e. reflexivity.
Qed.

(** X22.  The generate handler does not call the service for a text that
    is empty after trimming: it only shows the toast.  For any other text
    it calls the service once, with the text as typed and the selected
    voice, between setting and resetting the generating flag, and an audio
    URL it sets is a data URI that the validation of the transcription
    flow accepts as [audio/wav]. *)
Theorem generate_handler_outcome :
  forall generate bufferFromBase64 inputText selectedVoice,
    let effects :=
      Ui.handleGenerateAudio generate bufferFromBase64 inputText selectedVoice in
    (trim inputText = "" ->
     effects = [Ui.Toast true "Input Text is Empty"])
    /\ (trim inputText <> "" ->
        Ui.generateEffects effects
        = [Tts.mkGenerateRequest "googleai/gemini-2.5-flash-preview-tts"
             ["AUDIO"] selectedVoice inputText]
        /\ hd_error effects = Some (Ui.SetIsGenerating true)
        /\ last effects (Ui.SetIsGenerating true) = Ui.SetIsGenerating false
        /\ forall url,
            In (Ui.SetAudioUrl url) effects ->
            exists payload,
              url = "data:audio/wav;base64," ++ payload
              /\ validateDataUri url = Returned (mkDataUri "audio/wav" payload)).
Proof.
  intros generate bufferFromBase64 inputText selectedVoice effects.
  subst effects. unfold Ui.handleGenerateAudio. split.
  - intros H. apply isEmpty_true in H. now rewrite H.
  - intros H. apply isEmpty_false in H. rewrite H.
    unfold Tts.generateSpokenAudio, Tts.generateSpokenAudioFlow,
      Tts.generateRequestOf.
    cbn [Tts.voice Tts.ttsText].
    destruct (generate _) as [reason|[url|]]; cbn; repeat split;
      try (intros u [Hu|[Hu|[Hu|[Hu|[Hu|Hu]]]]]; try discriminate Hu;
           try (now destruct Hu)).
    intros u [Hu|[Hu|[Hu|[Hu|Hu]]]]; try discriminate Hu; try (now destruct Hu).
    inversion Hu; subst u. eexists. split; [reflexivity|].
    apply toWav_uri_is_valid.
Qed.

Lemma generate_handler_outcome_witness :
  Ui.handleGenerateAudio MoreSamples.ttsService Tts.strictBufferFromBase64
    "   " "Chara"
  = [Ui.Toast true "Input Text is Empty"]
  /\ Ui.generateEffects
       (Ui.handleGenerateAudio MoreSamples.ttsService Tts.strictBufferFromBase64
          " Bonjour " "Chara")
     = [Tts.mkGenerateRequest "googleai/gemini-2.5-flash-preview-tts"
          ["AUDIO"] "Chara" " Bonjour "].
Proof.
  split.
  - apply (proj1 (generate_handler_outcome MoreSamples.ttsService
                    Tts.strictBufferFromBase64 "   " "Chara")).
    reflexivity.
  - apply (proj2 (generate_handler_outcome MoreSamples.ttsService
                    Tts.strictBufferFromBase64 " Bonjour " "Chara")).
    discriminate.
Defined.

(** X23.  In both option tables the values are pairwise distinct, so the
    label shown for a selected language is the label of its entry; a value
    that is not in the table gets the empty label.  The selections the
    components start with, the first entries, are the defaults of the two
    flows: [en-US] and [Algenib]. *)
Theorem option_tables_are_consistent :
  NoDup (map Ui.value Ui.transcriptionLanguages)
  /\ NoDup (map Ui.value Ui.textToSpeechVoices)
  /\ (forall lang,
         In lang Ui.transcriptionLanguages ->
         Ui.getLanguageLabel (Ui.value lang) = Ui.label lang)
  /\ (forall v,
         ~ In v (map Ui.value Ui.transcriptionLanguages) ->
         Ui.getLanguageLabel v = "")
  /\ (forall env uri apiKey key body,
         buildRequest env (mkInput uri None apiKey) = Returned (key, body) ->
         Some (cfgLanguageCode (config body))
         = Ui.initialSelection Ui.transcriptionLanguages)
  /\ (forall text,
         Some (Tts.voiceName (Tts.generateRequestOf (Tts.mkTtsInput text None)))
         = Ui.initialSelection Ui.textToSpeechVoices).
Proof.
  assert (Hl : NoDup (map Ui.value Ui.transcriptionLanguages)).
  { cbn. repeat constructor; cbn; intuition discriminate. }
  assert (Hv : NoDup (map Ui.value Ui.textToSpeechVoices)).
  { cbn. repeat constructor; cbn; intuition discriminate. }
  repeat split; auto.
  - now apply labelIn_found.
  - now apply labelIn_missing.
  - intros env uri apiKey key body E.
    apply buildRequest_inv in E as (u & _ & _ & _ & ->). reflexivity.
Qed.

Lemma option_tables_are_consistent_witness :
  Ui.getLanguageLabel "pt-BR" = "Portuguese (Brazil)"
  /\ Ui.getLanguageLabel "nl-NL" = "".
Proof.
  destruct option_tables_are_consistent as (_ & _ & Hfound & Hmissing & _).
  split.
  - apply (Hfound (Ui.mkOption "pt-BR" "Portuguese (Brazil)")).
    cbn. auto 10.
  - apply (Hmissing "nl-NL"). cbn. intuition discriminate.
Defined.

(* ================================================================== *)
(** * Answers without a transcript *)

Section EmptyAnswers.
Import Runs.



End EmptyAnswers.





(* ================================================================== *)
(** * Answers with a transcript *)

Section GoodAnswers.

Lemma iteration_good_answer attempt r json results :
  ok r = true ->
  parseBody r = Some json ->
  resultsOf json = Some results ->
  ~ In JNull results ->
  trim (join " " (segments results)) <> "" ->
  iteration attempt (Responds r)
  = IterReturn (trim (join " " (segments results))).
Proof.
  intros Hok Hp Hr Hn Ht. unfold iteration, tryBlock.
  rewrite Hp, Hok, Hr. cbn [negb].
  rewrite (collectTranscripts_total results Hn). cbn [app].
  apply isEmpty_false in Ht. now rewrite Ht.
Qed.

End GoodAnswers.

(** X26.  A 2xx answer whose body has a non-empty [results] array without
    [null] entries and whose recognized segments, joined and trimmed, are
    not empty makes its attempt return that text, at any attempt.  At the
    first attempt the flow returns it after one network call and no wait;
    after two service errors it returns it at the third attempt. *)
Theorem good_answer_is_returned :
  forall env server input key body r json results,
    buildRequest env input = Returned (key, body) ->
    ok r = true ->
    parseBody r = Some json ->
    resultsOf json = Some results ->
    ~ In JNull results ->
    trim (join " " (segments results)) <> "" ->
    (forall attempt,
        iteration attempt (Responds r)
        = IterReturn (trim (join " " (segments results))))
    /\ (server 1 = Responds r ->
        transcribeLiveSpeechFlow env server input
        = ([Post key body 60000],
           Returned (trim (join " " (segments results)))))
    /\ (forall e1 e2,
           Runs.serviceError (server 1) = Some e1 ->
           Runs.serviceError (server 2) = Some e2 ->
           server 3 = Responds r ->
           transcribeLiveSpeechFlow env server input
           = ([Post key body 60000; Wait 1000; Post key body 60000;
               Wait 2000; Post key body 60000],
              Returned (trim (join " " (segments results))))).
Proof.
  intros env server input key body r json results Hreq Hok Hp Hr Hn Ht.
  pose proof (fun attempt =>
                iteration_good_answer attempt r json results Hok Hp Hr Hn Ht)
    as Hit.
  split; [exact Hit|]. split.
  - intros Hs. rewrite (flow_of_request _ server _ _ _ Hreq).
    rewrite (loop_return server key body 2 1 None
               (trim (join " " (segments results)))); [reflexivity|].
    rewrite Hs. apply Hit.
  - intros e1 e2 H1 H2 H3. rewrite (flow_of_request _ server _ _ _ Hreq).
    rewrite (loop_continue server key body 2 1 None e1)
      by now rewrite (iteration_serviceError 1 _ _ H1).
    change (1 + 1) with 2.
    rewrite (loop_continue server key body 1 2 (Some e1) e2)
      by now rewrite (iteration_serviceError 2 _ _ H2).
    change (2 + 1) with 3.
    rewrite (loop_return server key body 0 3 (Some e2)
               (trim (join " " (segments results)))); [reflexivity|].
    rewrite H3. apply Hit.
Qed.

Lemma good_answer_is_returned_witness :
  transcribeLiveSpeechFlow None Samples.flaky Samples.request
  = ([Samples.post; Wait 1000; Samples.post; Wait 2000; Samples.post],
     Returned (trim (join " " (segments [Samples.resultJson "hello world"])))).
Proof.
  refine (proj2 (proj2 (good_answer_is_returned None Samples.flaky Samples.request
                          "test-key" Samples.requestBodySent
                          (mkResponse 200
                             (stringify (Samples.resultsJson ["hello world"]))
                             (Some (Samples.resultsJson ["hello world"])))
                          (Some (Samples.resultsJson ["hello world"]))
                          [Samples.resultJson "hello world"]
                          eq_refl eq_refl eq_refl eq_refl _ _))
            (apiError 500 "backend error") (apiError 500 "backend error")
            eq_refl eq_refl eq_refl).
  - intros [H|H]; [discriminate H | exact H].
  - discriminate.
Defined.
